(** * College data cleaning pipeline: a shallow embedding of
    [utils.py], [data_processor.py] and the establishment-year slice of
    [scraper.py], with the properties of the cleaner stated and proved.

  Conventions of the embedding.
  - Python [str] is Rocq [string]; the character tables below follow
    CPython on the code points U+0000..U+007F (the 7-bit range).  A
    character above U+007F is treated as a caseless symbol that is neither
    a word character, a digit nor white space.
  - A Python value of unknown type (a field of the raw record) is a
    [pyval]; a [dict] is an association list in insertion order.
  - A Python exception is the [Raise] branch of [result]; [try]/[except]
    is a [match] on it.
  - [float] is the kernel's binary64 [PrimFloat.float].
  - [datetime.now()] is read from an explicit [clock] argument.
  - What depends on the interpreter that runs the cleaner (the digit limit
    of [str] on an [int], the room left under the recursion limit, the
    host check of [urllib]) is read from an explicit [interp] argument. *)

From Stdlib Require Import String Ascii List ZArith NArith Lia Bool PeanoNat.
From Stdlib Require Import DecimalString.
From Stdlib Require Import PrimFloat SpecFloat FloatOps Uint63.
Import ListNotations.

Set Warnings "-inexact-float,-register-all".

Local Open Scope list_scope.
Local Open Scope string_scope.

(* ================================================================== *)
(** ** Python strings *)
(* ================================================================== *)

Module PyStr.

Definition chars (s : string) : list ascii := list_ascii_of_string s.
Definition str (l : list ascii) : string := string_of_list_ascii l.

Definition code (c : ascii) : N := N_of_ascii c.

Definition in_range (lo hi : N) (c : ascii) : bool :=
  (lo <=? code c)%N && (code c <=? hi)%N.

(** [str.isspace] / [\s] on the 7-bit range: TAB..CR, FS..US, SPACE. *)
Definition is_space (c : ascii) : bool :=
  in_range 9 13 c || in_range 28 32 c.

Definition is_digit (c : ascii) : bool := in_range 48 57 c.
Definition is_upper (c : ascii) : bool := in_range 65 90 c.
Definition is_lower (c : ascii) : bool := in_range 97 122 c.
Definition is_alpha (c : ascii) : bool := is_upper c || is_lower c.

(** [\w]: letters, digits and the underscore. *)
Definition is_word (c : ascii) : bool :=
  is_alpha c || is_digit c || Ascii.eqb c "_".

Definition lower_char (c : ascii) : ascii :=
  if is_upper c then ascii_of_N (code c + 32) else c.
Definition upper_char (c : ascii) : ascii :=
  if is_lower c then ascii_of_N (code c - 32) else c.

Definition lower (s : string) : string := str (map lower_char (chars s)).

Definition len (s : string) : nat := String.length s.

(** [s.startswith(p)] *)
Definition startswith (p s : string) : bool := String.prefix p s.

(** [sub in s] *)
Fixpoint contains (sub s : string) : bool :=
  String.prefix sub s ||
  match s with
  | EmptyString => false
  | String _ t => contains sub t
  end.

(** [s[:n]] and [s[n:]] for a non-negative [n]. *)
Definition take (n : nat) (s : string) : string := str (firstn n (chars s)).
Definition drop (n : nat) (s : string) : string := str (skipn n (chars s)).

Fixpoint lstrip_chars (l : list ascii) : list ascii :=
  match l with
  | c :: t => if is_space c then lstrip_chars t else l
  | [] => []
  end.

(** [s.strip()] *)
Definition strip (s : string) : string :=
  str (rev (lstrip_chars (rev (lstrip_chars (chars s))))).

(** [s.replace(old, new)] for a non-empty [old]: occurrences are found left
    to right and do not overlap.  [skip] counts the characters of the
    current occurrence that are still to be passed over. *)
Fixpoint replace_from (old new : string) (skip : nat) (s : string) : string :=
  match s with
  | EmptyString => EmptyString
  | String c t =>
      match skip with
      | S k => replace_from old new k t
      | O =>
          if String.prefix old s
          then new ++ replace_from old new (len old - 1) t
          else String c (replace_from old new 0 t)
      end
  end.

Definition replace (old new s : string) : string := replace_from old new 0 s.

(** [s.split(sep)] for a one-character separator: always at least one piece. *)
Fixpoint split_on (sep : ascii) (s : string) : list string :=
  match s with
  | EmptyString => [EmptyString]
  | String c t =>
      if Ascii.eqb c sep then EmptyString :: split_on sep t
      else match split_on sep t with
           | p :: ps => String c p :: ps
           | [] => [String c EmptyString]
           end
  end.

(** [s.split()]: maximal runs of non-space characters. *)
Fixpoint words_from (cur : list ascii) (l : list ascii) : list string :=
  let flush := match cur with [] => [] | _ => [str (rev cur)] end in
  match l with
  | [] => flush
  | c :: t => if is_space c then flush ++ words_from [] t
              else words_from (c :: cur) t
  end.
Definition split_ws (s : string) : list string := words_from [] (chars s).

(** [sep.join(parts)] *)
Fixpoint join (sep : string) (parts : list string) : string :=
  match parts with
  | [] => EmptyString
  | [p] => p
  | p :: ps => p ++ sep ++ join sep ps
  end.

(** [s.isupper()]: some cased character, and no lower-case one. *)
Definition isupper (s : string) : bool :=
  existsb is_upper (chars s) && negb (existsb is_lower (chars s)).
Definition islower (s : string) : bool :=
  existsb is_lower (chars s) && negb (existsb is_upper (chars s)).

(** [s.isdigit()]: non-empty and digits only. *)
Definition isdigit (s : string) : bool :=
  negb (String.eqb s "") && forallb is_digit (chars s).

(** [s.capitalize()] and, on a single word, [s.title()]. *)
Definition capitalize (s : string) : string :=
  match s with
  | EmptyString => EmptyString
  | String c t => String (upper_char c) (lower t)
  end.

(** Membership of a string in a Python list or set of strings. *)
Definition mem (s : string) (l : list string) : bool :=
  existsb (String.eqb s) l.

End PyStr.

(* ================================================================== *)
(** ** The fragment of [re] the program uses *)
(* ================================================================== *)

Module Re.
Import PyStr.

(** Every repetition in the program's patterns is over a one-character
    class, and no pattern has more than one capturing group. *)
Inductive regex : Type :=
| Eps : regex
| Chr : (ascii -> bool) -> regex
| Seq : regex -> regex -> regex
| Alt : regex -> regex -> regex
| Rep : (ascii -> bool) -> nat -> option nat -> regex
| Grp : regex -> regex
| Bol : regex
| Eol : regex
| Wb : regex.

(** A position in the subject: the text before it (nearest character
    first), the text after it, and the text of group 1 if it took part. *)
Record pos : Type := mkpos {
  before : list ascii;
  after : list ascii;
  grp1 : option (list ascii)
}.

Definition below (n : nat) (hi : option nat) : bool :=
  match hi with None => true | Some h => Nat.ltb n h end.

Section Matcher.
Context {R : Type}.

(** Greedy [c{lo,hi}] with backtracking: take as many as allowed, give
    back one at a time while the continuation fails. *)
Fixpoint rep (f : ascii -> bool) (lo : nat) (hi : option nat) (n : nat)
         (b a : list ascii) (g : option (list ascii))
         (k : pos -> option R) : option R :=
  let stop := if Nat.leb lo n then k (mkpos b a g) else None in
  match a with
  | c :: t =>
      if f c && below n hi then
        match rep f lo hi (S n) (c :: b) t g k with
        | Some x => Some x
        | None => stop
        end
      else stop
  | [] => stop
  end.

Definition at_word_boundary (p : pos) : bool :=
  let w l := match l with c :: _ => is_word c | [] => false end in
  xorb (w (before p)) (w (after p)).

Fixpoint rmatch (r : regex) (p : pos) (k : pos -> option R) : option R :=
  match r with
  | Eps => k p
  | Chr f =>
      match after p with
      | c :: t => if f c then k (mkpos (c :: before p) t (grp1 p)) else None
      | [] => None
      end
  | Seq r1 r2 => rmatch r1 p (fun p' => rmatch r2 p' k)
  | Alt r1 r2 =>
      match rmatch r1 p k with
      | Some x => Some x
      | None => rmatch r2 p k
      end
  | Rep f lo hi => rep f lo hi 0 (before p) (after p) (grp1 p) k
  | Grp r1 =>
      rmatch r1 p (fun p' =>
        let n := length (before p') - length (before p) in
        k (mkpos (before p') (after p') (Some (rev (firstn n (before p'))))))
  | Bol => match before p with [] => k p | _ => None end
  | Eol =>
      match after p with
      | [] => k p
      | [c] => if Ascii.eqb c "010" then k p else None
      | _ => None
      end
  | Wb => if at_word_boundary p then k p else None
  end.
End Matcher.

(** A match at a position: how many characters it spans, and group 1. *)
Definition match_at (r : regex) (b a : list ascii)
  : option (nat * option (list ascii)) :=
  rmatch r (mkpos b a None)
         (fun p' => Some (length (before p') - length b, grp1 p')).

Definition group_text (g : option (list ascii)) : string :=
  match g with Some l => str l | None => EmptyString end.

(** [re.search]: the leftmost match; returns the matched text and group 1. *)
Fixpoint search_from (r : regex) (b a : list ascii) : option (string * string) :=
  match match_at r b a with
  | Some (n, g) => Some (str (firstn n a), group_text g)
  | None =>
      match a with
      | c :: t => search_from r (c :: b) t
      | [] => None
      end
  end.
Definition search (r : regex) (s : string) : option (string * string) :=
  search_from r [] (chars s).

(** [re.match(...) is not None] *)
Definition matches (r : regex) (s : string) : bool :=
  match match_at r [] (chars s) with Some _ => true | None => false end.

(** [re.sub] for a pattern that matches no empty string (true of every
    pattern substituted in the program): matches are replaced left to
    right, and scanning resumes where the match ended.  An empty match is
    passed over.  [repl] receives group 1. *)
Fixpoint sub_from (r : regex) (repl : string -> string)
         (skip : nat) (b a : list ascii) : string :=
  match a with
  | [] => EmptyString
  | c :: t =>
      match skip with
      | S k => sub_from r repl k (c :: b) t
      | O =>
          match match_at r b a with
          | Some (S n, g) => repl (group_text g) ++ sub_from r repl n (c :: b) t
          | _ => String c (sub_from r repl 0 (c :: b) t)
          end
      end
  end.
Definition sub (r : regex) (repl : string -> string) (s : string) : string :=
  sub_from r repl 0 [] (chars s).

(** [re.findall] for a pattern with one group: the text of the group of
    each successive match. *)
Fixpoint findall_from (r : regex) (skip : nat) (b a : list ascii) : list string :=
  match a with
  | [] => []
  | c :: t =>
      match skip with
      | S k => findall_from r k (c :: b) t
      | O =>
          match match_at r b a with
          | Some (S n, g) => group_text g :: findall_from r n (c :: b) t
          | _ => findall_from r 0 (c :: b) t
          end
      end
  end.
Definition findall (r : regex) (s : string) : list string :=
  findall_from r 0 [] (chars s).

(** *** Pattern building blocks *)

Definition ch (c : ascii) : regex := Chr (Ascii.eqb c).
(** A literal character under [re.IGNORECASE]. *)
Definition ch_i (c : ascii) : regex :=
  Chr (fun x => Ascii.eqb (lower_char x) (lower_char c)).

Fixpoint lit (s : string) : regex :=
  match s with
  | EmptyString => Eps
  | String c t => Seq (ch c) (lit t)
  end.
Fixpoint lit_i (s : string) : regex :=
  match s with
  | EmptyString => Eps
  | String c t => Seq (ch_i c) (lit_i t)
  end.

Fixpoint alts (rs : list regex) : regex :=
  match rs with
  | [] => Chr (fun _ => false)
  | [r] => r
  | r :: rest => Alt r (alts rest)
  end.

Fixpoint seqs (rs : list regex) : regex :=
  match rs with
  | [] => Eps
  | [r] => r
  | r :: rest => Seq r (seqs rest)
  end.

Definition one_of (s : string) (c : ascii) : bool :=
  existsb (Ascii.eqb c) (chars s).
(** [.] without [re.DOTALL] *)
Definition dot (c : ascii) : bool := negb (Ascii.eqb c "010").

Definition plus (f : ascii -> bool) : regex := Rep f 1 None.
Definition star (f : ascii -> bool) : regex := Rep f 0 None.

End Re.


(* ================================================================== *)
(** ** Python values, exceptions and floats *)
(* ================================================================== *)

(** The values a field of a raw record can hold: [None], booleans,
    integers, strings, lists and string-keyed dicts (floats are left out;
    no cleaner treats them differently from integers). *)
Inductive pyval : Type :=
| PNone : pyval
| PBool : bool -> pyval
| PInt : Z -> pyval
| PStr : string -> pyval
| PList : list pyval -> pyval
| PDict : list (string * pyval) -> pyval.

Inductive exn : Type :=
| TypeError : exn
| AttributeError : exn
| ValueError : exn
| RecursionError : exn.

Inductive result (A : Type) : Type :=
| Ok : A -> result A
| Raise : exn -> result A.
Arguments Ok {A} _.
Arguments Raise {A} _.

Definition bind {A B : Type} (m : result A) (f : A -> result B) : result B :=
  match m with
  | Ok a => f a
  | Raise e => Raise e
  end.

Notation "x <- m ;; k" := (bind m (fun x => k))
  (at level 61, m at next level, right associativity).

Module Py.
Import PyStr.

(** [bool(v)] *)
Definition truthy (v : pyval) : bool :=
  match v with
  | PNone => false
  | PBool b => b
  | PInt z => negb (Z.eqb z 0)
  | PStr s => negb (String.eqb s "")
  | PList l => match l with [] => false | _ => true end
  | PDict d => match d with [] => false | _ => true end
  end.

(** [d.get(key, default)] *)
Fixpoint get (d : list (string * pyval)) (key : string) (default : pyval) : pyval :=
  match d with
  | [] => default
  | (k, v) :: rest => if String.eqb k key then v else get rest key default
  end.

(** [d.get(key)]: [None] when the key is absent. *)
Definition get_none (d : list (string * pyval)) (key : string) : pyval :=
  get d key PNone.

(** [for x in v]: the items iteration yields, or [TypeError] when [v] is
    not iterable. *)
Definition iter (v : pyval) : result (list pyval) :=
  match v with
  | PStr s => Ok (map (fun c => PStr (String c EmptyString)) (chars s))
  | PList l => Ok l
  | PDict d => Ok (map (fun kv => PStr (fst kv)) d)
  | PNone | PBool _ | PInt _ => Raise TypeError
  end.

(** [needle in v] for a string [needle]: substring test on a [str],
    membership on a [list], key membership on a [dict], [TypeError]
    otherwise. *)
Definition str_in (needle : string) (v : pyval) : result bool :=
  match v with
  | PStr s => Ok (contains needle s)
  | PList l =>
      Ok (existsb (fun x => match x with
                            | PStr s => String.eqb s needle
                            | _ => false
                            end) l)
  | PDict d => Ok (existsb (fun kv => String.eqb (fst kv) needle) d)
  | PNone | PBool _ | PInt _ => Raise TypeError
  end.

(** [any(needle in v for needle in needles)] *)
Fixpoint any_str_in (needles : list string) (v : pyval) : result bool :=
  match needles with
  | [] => Ok false
  | n :: rest =>
      b <- str_in n v ;;
      if b then Ok true else any_str_in rest v
  end.

(** [str(z)] and [int(s)] on decimal digits. *)
Definition int_str (z : Z) : string := NilZero.string_of_int (Z.to_int z).

Definition int_of_digits (s : string) : Z :=
  fold_left (fun acc c => (10 * acc + Z.of_N (code c - 48))%Z) (chars s) 0%Z.

Definition hex_digit (n : N) : ascii :=
  if (n <? 10)%N then ascii_of_N (48 + n) else ascii_of_N (87 + n).

Definition dquote : ascii := "034"%char.

(** One character of [repr(s)] inside the quotes [q]. *)
Definition repr_char (q : ascii) (c : ascii) : string :=
  if Ascii.eqb c "\" then "\\"
  else if Ascii.eqb c q then String "\" (String c EmptyString)
  else if Ascii.eqb c "010" then "\n"
  else if Ascii.eqb c "013" then "\r"
  else if Ascii.eqb c "009" then "\t"
  else if (code c <? 32)%N || in_range 127 160 c || (code c =? 173)%N
  then String "\" (String "x" (String (hex_digit (code c / 16))
                                (String (hex_digit (code c mod 16)) EmptyString)))
  else String c EmptyString.

(** [repr(s)] for a [str]: single quotes unless the text has a single and
    no double quote. *)
Definition str_repr (s : string) : string :=
  let q : ascii :=
    if contains "'" s && negb (contains (String dquote EmptyString) s)
    then dquote else "'"%char in
  String q (String.concat EmptyString (map (repr_char q) (chars s))
            ++ String q EmptyString).

Fixpoint repr (v : pyval) : string :=
  match v with
  | PNone => "None"
  | PBool true => "True"
  | PBool false => "False"
  | PInt z => int_str z
  | PStr s => str_repr s
  | PList l => "[" ++ join ", " (map repr l) ++ "]"
  | PDict d =>
      "{" ++ join ", " (map (fun kv => (str_repr (fst kv) ++ ": " ++ repr (snd kv))%string) d) ++ "}"
  end.

(** The text of [str(v)], were there no limit on it. *)
Definition to_str (v : pyval) : string :=
  match v with
  | PStr s => s
  | _ => repr v
  end.

(** What the interpreter that runs the cleaner allows.
    - [int_max_str_digits] is [sys.get_int_max_str_digits()]: the longest
      decimal text [str] gives for an [int], 0 for no limit (4300 by default
      where the limit exists).
    - [repr_depth] is the room left under the recursion limit where the
      cleaner runs: how many levels of elements inside lists and dicts
      [repr] can descend into.
    - [bracketed_netloc_ok] tells whether [urllib.parse] accepts a host
      part that holds both square brackets: every such host before urllib
      began to validate the bracketed address, the well-placed IPv6 and
      IPvFuture addresses since. *)
Record interp : Type := mkinterp {
  int_max_str_digits : nat;
  repr_depth : nat;
  bracketed_netloc_ok : string -> bool }.

(** [str(z)] under the digit limit: [ValueError] when the text is longer
    than the check threshold of 640 characters and has more digits (the
    sign not counted) than a non-zero limit allows. *)
Definition int_to_str (py : interp) (z : Z) : result string :=
  let s := int_str z in
  let digits := len s - (if (z <? 0)%Z then 1 else 0) in
  if Nat.ltb 640 (len s)
     && negb (Nat.eqb (int_max_str_digits py) 0)
     && Nat.ltb (int_max_str_digits py) digits
  then Raise ValueError
  else Ok s.

(** The results of a list of computations, or the first exception. *)
Fixpoint sequence {A : Type} (l : list (result A)) : result (list A) :=
  match l with
  | [] => Ok []
  | m :: rest =>
      x <- m ;;
      xs <- sequence rest ;;
      Ok (x :: xs)
  end.

(** [repr(v)] with room for [depth] levels of elements: the text of
    [repr], [ValueError] from an [int] over the digit limit, or
    [RecursionError] at an element that lies deeper than the room allows
    (the first of them in the order of the elements). *)
Fixpoint repr_in (py : interp) (depth : nat) (v : pyval) {struct v} : result string :=
  match v with
  | PNone => Ok "None"
  | PBool true => Ok "True"
  | PBool false => Ok "False"
  | PInt z => int_to_str py z
  | PStr s => Ok (str_repr s)
  | PList l =>
      items <- sequence
                 (map (fun x => match depth with
                                | 0 => Raise RecursionError
                                | S d => repr_in py d x
                                end) l) ;;
      Ok ("[" ++ join ", " items ++ "]")
  | PDict d =>
      items <- sequence
                 (map (fun kv => match depth with
                                 | 0 => Raise RecursionError
                                 | S d' =>
                                     v <- repr_in py d' (snd kv) ;;
                                     Ok (str_repr (fst kv) ++ ": " ++ v)%string
                                 end) d) ;;
      Ok ("{" ++ join ", " items ++ "}")
  end.

(** [str(v)] *)
Definition to_str_in (py : interp) (v : pyval) : result string :=
  match v with
  | PStr s => Ok s
  | _ => repr_in py (repr_depth py) v
  end.

(** The text of a replacement field [{v}] of an f-string with no format
    specification: [format(v, '')], which is [str(v)] for the values of
    [pyval]. *)
Definition format (py : interp) (v : pyval) : result string := to_str_in py v.

(** [float(n)] for a small non-negative integer. *)
Definition float_of_nat (n : nat) : float :=
  PrimFloat.of_uint63 (Uint63.of_Z (Z.of_nat n)).

(** The integer nearest to [m * 2^e], ties to even. *)
Definition nearest_even (m e : Z) : Z :=
  if (0 <=? e)%Z then (m * 2 ^ e)%Z
  else
    let den := (2 ^ (- e))%Z in
    let q := (m / den)%Z in
    let r := (m mod den)%Z in
    if (2 * r <? den)%Z then q
    else if (den <? 2 * r)%Z then (q + 1)%Z
    else if Z.even q then q else (q + 1)%Z.

(** [round(x, 2)] on a finite non-negative float: CPython rounds the exact
    binary value to two decimals, ties to even, and returns the float
    nearest to that decimal (here: the correctly rounded quotient of two
    exactly represented integers). *)
Definition round2 (x : float) : float :=
  match Prim2SF x with
  | S754_finite false m e =>
      let n := nearest_even (Z.pos m * 100) e in
      (PrimFloat.of_uint63 (Uint63.of_Z n) / 100)%float
  | _ => x
  end.

End Py.


(* ================================================================== *)
(** ** [utils.py] *)
(* ================================================================== *)

Module Utils.
Import PyStr Re Py.

(** The table [html_entities] of [clean_text], in declaration order. *)
Definition html_entities : list (string * string) :=
  [ ("&amp;", "&"); ("&lt;", "<"); ("&gt;", ">");
    ("&quot;", String dquote EmptyString);
    ("&#39;", "'"); ("&nbsp;", " "); ("&hellip;", "...") ].

(** [\s+] *)
Definition re_spaces : regex := plus is_space.

(** The characters [clean_text] keeps: [\w], [\s] and [.,!?()-]. *)
Definition kept_char (c : ascii) : bool :=
  is_word c || is_space c || one_of ".,!?()-" c.

(** [[^\w\s.,!?()-]] *)
Definition re_special : regex := Chr (fun c => negb (kept_char c)).

Definition replace_entities (text : string) : string :=
  fold_left (fun t er => replace (fst er) (snd er) t) html_entities text.

(** [clean_text(text)] *)
Definition clean_text (text : pyval) : string :=
  match text with
  | PStr s =>
      if String.eqb s "" then ""
      else
        let text := sub re_spaces (fun _ => " ") s in
        let text := sub re_special (fun _ => "") text in
        let text := replace_entities text in
        strip text
  | _ => ""
  end.

(** [[^\d+]] *)
Definition re_not_digit_plus : regex :=
  Chr (fun c => negb (is_digit c || Ascii.eqb c "+")).

(** [normalize_phone_number(phone)] on a [str]; [None] is [None]. *)
Definition normalize_phone_number (phone : string) : option string :=
  if String.eqb phone "" then None
  else
    let cleaned := sub re_not_digit_plus (fun _ => "") phone in
    let cleaned :=
      if startswith "+91" cleaned then drop 3 cleaned
      else if startswith "91" cleaned && Nat.eqb (len cleaned) 12 then drop 2 cleaned
      else if startswith "0" cleaned then drop 1 cleaned
      else cleaned in
    if Nat.eqb (len cleaned) 10 && isdigit cleaned
    then Some ("+91-" ++ take 5 cleaned ++ "-" ++ drop 5 cleaned)
    else if Nat.leb 6 (len cleaned) && Nat.leb (len cleaned) 11 && isdigit cleaned
    then Some cleaned
    else None.

(** [^[a-zA-Z0-9._%+-]+@[a-zA-Z0-9.-]+\.[a-zA-Z]{2,}$] *)
Definition re_email : regex :=
  seqs [ Bol;
         plus (fun c => is_alpha c || is_digit c || one_of "._%+-" c);
         ch "@";
         plus (fun c => is_alpha c || is_digit c || one_of ".-" c);
         ch ".";
         Rep is_alpha 2 None;
         Eol ].

(** [validate_email(email)] on a [str]. *)
Definition validate_email (email : string) : bool :=
  if String.eqb email "" || negb (contains "@" email) then false
  else matches re_email email.

End Utils.


(* ================================================================== *)
(** ** [data_processor.py] *)
(* ================================================================== *)

(** [datetime.now()], as the cleaner reads it. *)
Record clock : Type := mkclock {
  now_year : Z;        (* datetime.now().year *)
  now_iso : string     (* datetime.now().isoformat() *)
}.

(** The value of the [courses] and [facilities] keys.  The source names the
    keys [courses]/[facilities] ([items] here), [categories],
    [total_courses]/[total_facilities] ([total]) and [unique_categories];
    the last key is absent from the dict returned for an empty input. *)
Record categorized : Type := mkcategorized {
  items : list string;
  categories : list (string * list string);
  total : nat;
  unique_categories : option nat
}.

Record location_details : Type := mklocation {
  city : string;
  district : string;
  state : string;
  region : string
}.

Record quality : Type := mkquality {
  completeness : float;
  accuracy : string;
  freshness : string;
  reliability : string
}.

(** The dict [clean_college_data] returns.  [name], [location],
    [description] and [source_url] hold raw values on the failure path, so
    they are [pyval]s. *)
Record CanonicalRecord : Type := mkrecord {
  name : pyval;
  location : pyval;
  address : string;
  phone : list string;
  email : list string;
  website : string;
  courses : categorized;
  facilities : categorized;
  description : pyval;
  established : string;
  affiliation : string;
  source_url : pyval;
  images : list string;
  data_quality : quality;
  processed_at : string;
  college_type : string;
  location_info : location_details;
  completeness_score : float
}.

Module DataProcessor.
Import PyStr Re Py Utils.

(** [self.course_categories], in declaration order. *)
Definition course_categories : list (string * list string) :=
  [ ("Engineering",
      ["btech"; "be"; "mtech"; "me"; "civil"; "mechanical"; "electrical";
       "computer science"; "information technology"; "electronics"; "chemical"]);
    ("Medical",
      ["mbbs"; "bds"; "md"; "ms"; "nursing"; "pharmacy"; "physiotherapy";
       "medical"; "dental"; "veterinary"]);
    ("Management",
      ["mba"; "bba"; "pgdm"; "management"; "business administration";
       "finance"; "marketing"; "hr"; "operations"]);
    ("Arts",
      ["ba"; "ma"; "english"; "history"; "political science"; "sociology";
       "psychology"; "literature"; "fine arts"; "performing arts"]);
    ("Science",
      ["bsc"; "msc"; "physics"; "chemistry"; "biology"; "mathematics";
       "botany"; "zoology"; "microbiology"; "biotechnology"]);
    ("Commerce",
      ["bcom"; "mcom"; "commerce"; "accounting"; "economics"; "taxation";
       "banking"; "insurance"]);
    ("Computer Science",
      ["bca"; "mca"; "computer science"; "information technology";
       "software engineering"; "data science"; "artificial intelligence"]);
    ("Law",
      ["llb"; "llm"; "law"; "legal studies"; "constitutional law";
       "corporate law"; "criminal law"]) ].

(** [self.facility_categories], in declaration order. *)
Definition facility_categories : list (string * list string) :=
  [ ("Academic",
      ["library"; "laboratory"; "computer lab"; "classroom"; "auditorium";
       "seminar hall"; "conference room"; "research center"]);
    ("Accommodation",
      ["hostel"; "dormitory"; "residence"; "accommodation"; "guest house";
       "boys hostel"; "girls hostel"]);
    ("Recreation",
      ["sports complex"; "gymnasium"; "playground"; "swimming pool";
       "cafeteria"; "canteen"; "food court"; "student center"]);
    ("Technology",
      ["wifi"; "internet"; "computer center"; "smart classroom";
       "projector"; "audio visual"; "language lab"]);
    ("Healthcare",
      ["medical center"; "health center"; "clinic"; "infirmary";
       "first aid"; "counseling center"]);
    ("Transportation",
      ["bus service"; "transport"; "shuttle"; "parking"; "vehicle"]) ].

(** [^(college of|institute of|university of)\s+], [re.IGNORECASE] *)
Definition re_name_prefix : regex :=
  seqs [ Bol;
         Grp (alts [lit_i "college of"; lit_i "institute of"; lit_i "university of"]);
         plus is_space ].

(** [\s+(college|institute|university)$], [re.IGNORECASE] *)
Definition re_name_suffix : regex :=
  seqs [ plus is_space;
         Grp (alts [lit_i "college"; lit_i "institute"; lit_i "university"]);
         Eol ].

(** [clean_college_name(name)] *)
Definition clean_college_name (name : pyval) : string :=
  if negb (truthy name) then "Unknown College"
  else
    let name := clean_text name in
    let name := sub re_name_prefix (fun _ => "") name in
    let name := sub re_name_suffix (fun g => " " ++ g) name in
    let name := strip (sub re_spaces (fun _ => " ") name) in
    if isupper name || islower name
    then join " " (map capitalize (split_ws name))
    else name.

Definition karnataka_cities : list string :=
  [ "bangalore"; "mysore"; "hubli"; "dharwad"; "belgaum"; "mangalore";
    "gulbarga"; "davangere"; "bellary"; "bijapur"; "shimoga"; "tumkur";
    "raichur"; "bidar"; "hassan"; "udupi"; "chickmagalur" ].

(** [.{0,50}<city>.{0,50}] *)
Definition re_city_window (city : string) : regex :=
  seqs [ Rep dot 0 (Some 50); lit city; Rep dot 0 (Some 50) ].

(** The loop over [karnataka_cities] in [clean_location]: the window around
    the first listed city that the text contains. *)
Fixpoint city_window (cities : list string) (location_lower : string)
  : option string :=
  match cities with
  | [] => None
  | city :: rest =>
      if contains city location_lower then
        match search (re_city_window city) location_lower with
        | Some (m, _) => Some (clean_text (PStr m))
        | None => city_window rest location_lower
        end
      else city_window rest location_lower
  end.

(** [clean_location(location)] *)
Definition clean_location (location : pyval) : string :=
  if negb (truthy location) then ""
  else
    let location := clean_text location in
    let location_lower := lower location in
    match city_window karnataka_cities location_lower with
    | Some w => w
    | None => if Nat.ltb 100 (len location) then take 100 location else location
    end.

(** [(pin\s*code|pincode|zip)[\s:]*\d{6}], [re.IGNORECASE] *)
Definition re_pin : regex :=
  seqs [ Grp (alts [ seqs [lit_i "pin"; star is_space; lit_i "code"];
                     lit_i "pincode";
                     lit_i "zip" ]);
         star (fun c => is_space c || Ascii.eqb c ":");
         Rep is_digit 6 (Some 6) ].

(** [clean_address(address)] *)
Definition clean_address (address : pyval) : string :=
  if negb (truthy address) then ""
  else
    let address := clean_text address in
    let address := sub re_pin (fun _ => "") address in
    let address := strip (sub re_spaces (fun _ => " ") address) in
    if Nat.ltb 200 (len address) then take 200 address else address.

(** One turn of the loop of [clean_phone_numbers]; the state is
    [(cleaned_phones, seen_phones)].  A normalised number is never empty,
    so [if normalized] is the test for [Some]. *)
Definition phone_step (st : list string * list string) (phone : pyval)
  : list string * list string :=
  match phone with
  | PStr p =>
      match normalize_phone_number p with
      | Some normalized =>
          if negb (mem normalized (snd st))
          then ((fst st ++ [normalized])%list, normalized :: snd st)
          else st
      | None => st
      end
  | _ => st
  end.

(** [clean_phone_numbers(phone_list)] *)
Definition clean_phone_numbers (phone_list : pyval) : result (list string) :=
  if negb (truthy phone_list) then Ok []
  else
    xs <- iter phone_list ;;
    Ok (firstn 5 (fst (fold_left phone_step xs ([], [])))).

(** One turn of the loop of [clean_email_addresses]. *)
Definition email_step (st : list string * list string) (email : pyval)
  : list string * list string :=
  match email with
  | PStr e =>
      let email := lower (strip e) in
      if validate_email email && negb (mem email (snd st))
      then ((fst st ++ [email])%list, email :: snd st)
      else st
  | _ => st
  end.

(** [clean_email_addresses(email_list)] *)
Definition clean_email_addresses (email_list : pyval) : result (list string) :=
  if negb (truthy email_list) then Ok []
  else
    xs <- iter email_list ;;
    Ok (firstn 3 (fst (fold_left email_step xs ([], [])))).

(** [urlparse(url).netloc] of [urllib.parse], for the URLs
    [clean_website_url] passes, which are empty or start with [http://] or
    [https://]: tabs and line breaks are dropped, the host part runs from
    [//] to the first of [/?#]; an unbalanced square bracket in it raises
    [ValueError], and so does a host part with both brackets that the
    interpreter's urllib does not accept. *)
Definition urlparse_netloc (py : interp) (url : string) : result string :=
  let url := str (filter (fun c => negb (one_of (str ["009"; "010"; "013"]%char) c))
                         (chars url)) in
  let rest :=
    if startswith "https:" url then drop 6 url
    else if startswith "http:" url then drop 5 url
    else url in
  if startswith "//" rest then
    let after_slashes := chars (drop 2 rest) in
    let stop := fix stop (l : list ascii) : list ascii :=
      match l with
      | [] => []
      | c :: t => if one_of "/?#" c then [] else c :: stop t
      end in
    let netloc := str (stop after_slashes) in
    if xorb (contains "[" netloc) (contains "]" netloc)
    then Raise ValueError
    else if contains "[" netloc && contains "]" netloc
            && negb (bracketed_netloc_ok py netloc)
    then Raise ValueError
    else Ok netloc
  else Ok "".

(** [clean_website_url(website)] *)
Definition clean_website_url (py : interp) (website : pyval) : result string :=
  if negb (truthy website) then Ok ""
  else
    match website with
    | PStr w =>
        let website := strip w in
        let website :=
          if negb (String.eqb website "")
             && negb (startswith "http://" website || startswith "https://" website)
          then "https://" ++ website
          else website in
        (* try: ... except: pass *)
        match urlparse_netloc py website with
        | Ok netloc => if negb (String.eqb netloc "") then Ok website else Ok ""
        | Raise _ => Ok ""
        end
    | _ => Raise AttributeError   (* website.strip() *)
    end.

(** The classification loop shared by courses and facilities: the first
    category of the table, in order, that has a keyword contained in the
    lower-cased label; ['Other'] when the loop ends without a match. *)
Fixpoint categorize (table : list (string * list string)) (label_lower : string)
  : string :=
  match table with
  | [] => "Other"
  | (category, keywords) :: rest =>
      if existsb (fun keyword => contains keyword label_lower) keywords
      then category
      else categorize rest label_lower
  end.

(** [categories[category].append(item)]; the category is always a key of
    the dict (a key of the table, or ['Other']). *)
Fixpoint dict_append (category item : string) (d : list (string * list string))
  : list (string * list string) :=
  match d with
  | [] => []
  | (k, v) :: rest =>
      if String.eqb k category then (k, (v ++ [item])%list) :: rest
      else (k, v) :: dict_append category item rest
  end.

(** [{category: [] for category in table.keys()}] followed by
    [categories['Other'] = []]. *)
Definition empty_categories (table : list (string * list string))
  : list (string * list string) :=
  let d := map (fun kv => (fst kv, @nil string)) table in
  if mem "Other" (map fst table) then d else (d ++ [("Other", [])])%list.

(** One turn of the loop of [clean_and_categorize_courses] (and of its
    facilities twin); the state is [(cleaned_items, categories)]. *)
Definition categorize_step (table : list (string * list string))
           (st : list string * list (string * list string)) (item : pyval)
  : list string * list (string * list string) :=
  match item with
  | PStr _ =>
      let item := clean_text item in
      if Nat.ltb (len item) 3 || Nat.ltb 100 (len item) then st
      else ((fst st ++ [item])%list,
            dict_append (categorize table (lower item)) item (snd st))
  | _ => st
  end.

Definition clean_and_categorize (table : list (string * list string))
           (cap : nat) (item_list : pyval) : result categorized :=
  if negb (truthy item_list) then Ok (mkcategorized [] [] 0 None)
  else
    xs <- iter item_list ;;
    let st := fold_left (categorize_step table) xs ([], empty_categories table) in
    let categories :=
      filter (fun kv => match snd kv with [] => false | _ => true end) (snd st) in
    Ok (mkcategorized (firstn cap (fst st)) categories
                      (length (fst st)) (Some (length categories))).

(** [clean_and_categorize_courses(course_list)] *)
Definition clean_and_categorize_courses (course_list : pyval) : result categorized :=
  clean_and_categorize course_categories 20 course_list.

(** [clean_and_categorize_facilities(facility_list)] *)
Definition clean_and_categorize_facilities (facility_list : pyval) : result categorized :=
  clean_and_categorize facility_categories 15 facility_list.

(** [(click here|visit our website|contact us)], [re.IGNORECASE] *)
Definition re_promo : regex :=
  Grp (alts [lit_i "click here"; lit_i "visit our website"; lit_i "contact us"]).

(** The loop over [sentences] in [clean_description]. *)
Fixpoint truncate_sentences (sentences : list string) (truncated : string) : string :=
  match sentences with
  | [] => truncated
  | sentence :: rest =>
      if Nat.leb (len (truncated ++ sentence)) 500
      then truncate_sentences rest (truncated ++ sentence ++ ".")
      else truncated
  end.

(** [clean_description(description)] *)
Definition clean_description (description : pyval) : string :=
  if negb (truthy description) then ""
  else
    let description := clean_text description in
    let description := sub re_promo (fun _ => "") description in
    if Nat.ltb 500 (len description) then
      let sentences := split_on "." description in
      let truncated := truncate_sentences sentences "" in
      if negb (String.eqb truncated "") then truncated else take 500 description
    else description.

(** [\b(19|20)\d{2}\b] *)
Definition re_year : regex :=
  seqs [ Wb; Grp (alts [lit "19"; lit "20"]); Rep is_digit 2 (Some 2); Wb ].

(** [clean_establishment_year(year)]; [str(year)] can raise. *)
Definition clean_establishment_year (py : interp) (clk : clock) (year : pyval)
  : result string :=
  if negb (truthy year) then Ok ""
  else
    text <- to_str_in py year ;;
    match search re_year text with
    | Some (m, _) =>
        let year_int := int_of_digits m in
        if (1800 <=? year_int)%Z && (year_int <=? now_year clk)%Z
        then Ok (int_str year_int)
        else Ok ""
    | None => Ok ""
    end.

Definition common_affiliations : list string :=
  [ "aicte"; "ugc"; "naac"; "nba"; "vtu"; "bangalore university";
    "mysore university"; "karnataka university"; "mangalore university" ].

(** [clean_affiliation(affiliation)] *)
Definition clean_affiliation (affiliation : pyval) : string :=
  if negb (truthy affiliation) then ""
  else
    let affiliation := clean_text affiliation in
    let affiliation_lower := lower affiliation in
    if existsb (fun common => contains common affiliation_lower) common_affiliations
    then affiliation
    else if Nat.leb (len affiliation) 100 then take 100 affiliation else "".

(** One turn of the loop of [clean_image_urls]. *)
Definition image_step (cleaned_images : list string) (img_url : pyval) : list string :=
  match img_url with
  | PStr u =>
      let img_url := strip u in
      if (startswith "http://" img_url || startswith "https://" img_url)
         && existsb (fun ext => contains ext (lower img_url))
                    [".jpg"; ".jpeg"; ".png"; ".webp"]
      then (cleaned_images ++ [img_url])%list
      else cleaned_images
  | _ => cleaned_images
  end.

(** [clean_image_urls(image_list)] *)
Definition clean_image_urls (image_list : pyval) : result (list string) :=
  if negb (truthy image_list) then Ok []
  else
    xs <- iter image_list ;;
    Ok (firstn 5 (fold_left image_step xs [])).

(** [determine_college_type(data)], reading [data['courses']]: the first
    category with strictly more courses than every one before it. *)
Definition determine_college_type (courses_data : categorized) : string :=
  match categories courses_data with
  | [] => "General"
  | cats =>
      snd (fold_left
             (fun (st : nat * string) kv =>
                if Nat.ltb (fst st) (length (snd kv))
                then (length (snd kv), fst kv)
                else st)
             cats (0, "General"))
  end.

Definition city_district_map : list (string * string) :=
  [ ("bangalore", "Bangalore Urban"); ("mysore", "Mysuru");
    ("hubli", "Dharwad"); ("dharwad", "Dharwad"); ("belgaum", "Belagavi");
    ("mangalore", "Dakshina Kannada"); ("gulbarga", "Kalaburagi");
    ("davangere", "Davanagere"); ("bellary", "Ballari");
    ("bijapur", "Vijayapura"); ("shimoga", "Shivamogga");
    ("tumkur", "Tumakuru") ].

(** [extract_location_details(location)] on the cleaned location. *)
Definition extract_location_details (location : string) : location_details :=
  if String.eqb location "" then mklocation "" "" "Karnataka" ""
  else
    let location_lower := lower location in
    let hit := find (fun cd => contains (fst cd) location_lower) city_district_map in
    let city := match hit with Some cd => capitalize (fst cd) | None => "" end in
    let district := match hit with Some cd => snd cd | None => "" end in
    let region :=
      if mem city ["Bangalore"; "Mysore"; "Tumkur"] then "South Karnataka"
      else if mem city ["Hubli"; "Dharwad"; "Belgaum"] then "North Karnataka"
      else if mem city ["Mangalore"; "Udupi"] then "Coastal Karnataka"
      else "" in
    mklocation city district "Karnataka" region.

(** [assess_data_quality(data)] on the raw record. *)
Definition assess_data_quality (data : list (string * pyval)) : result quality :=
  let required_fields := ["name"; "location"; "courses"; "phone"; "description"] in
  let available_fields :=
    length (filter (fun field => truthy (get_none data field)) required_fields) in
  let completeness :=
    round2 (float_of_nat available_fields / float_of_nat (length required_fields)) in
  let source_url := get data "source_url" (PStr "") in
  high <- any_str_in [".edu"; ".ac.in"; ".gov.in"] source_url ;;
  if high then Ok (mkquality completeness "high" "recent" "medium")
  else
    medium <- any_str_in ["careers360"; "collegedunia"; "shiksha"] source_url ;;
    if medium then Ok (mkquality completeness "medium" "recent" "medium")
    else Ok (mkquality completeness "low" "recent" "medium").

(** [len(d)] of the dict held under [courses] or [facilities]. *)
Definition categorized_len (c : categorized) : nat :=
  match unique_categories c with
  | Some _ => 4
  | None => 3
  end.

(** [calculate_completeness(data)], reading the seven weighted keys of the
    cleaned dict in the order of [fields_weights].  A [str] counts when it
    is non-empty; a [list] or [dict] counts when it is truthy and its [len]
    is positive. *)
Definition calculate_completeness
           (name location : string) (phone email : list string)
           (courses facilities : categorized) (description : string) : float :=
  let add (present : bool) (weight score : float) : float :=
    if present then (score + weight)%float else score in
  let nonempty_list (l : list string) : bool :=
    match l with [] => false | _ => Nat.ltb 0 (length l) end in
  let nonempty_dict (c : categorized) : bool :=
    Nat.ltb 0 (categorized_len c) && Nat.ltb 0 (categorized_len c) in
  let score := 0%float in
  let score := add (negb (String.eqb name "")) 0.2%float score in
  let score := add (negb (String.eqb location "")) 0.15%float score in
  let score := add (nonempty_list phone) 0.15%float score in
  let score := add (nonempty_list email) 0.1%float score in
  let score := add (nonempty_dict courses) 0.2%float score in
  let score := add (nonempty_dict facilities) 0.1%float score in
  let score := add (negb (String.eqb description "")) 0.1%float score in
  round2 score.

(** [create_minimal_clean_data(raw_data)] *)
Definition create_minimal_clean_data (clk : clock) (raw_data : list (string * pyval))
  : CanonicalRecord :=
  {| name := get raw_data "name" (PStr "Unknown College");
     location := get raw_data "location" (PStr "");
     address := "";
     phone := [];
     email := [];
     website := "";
     courses := mkcategorized [] [] 0 None;
     facilities := mkcategorized [] [] 0 None;
     description := get raw_data "description" (PStr "");
     established := "";
     affiliation := "";
     source_url := get raw_data "source_url" (PStr "");
     images := [];
     college_type := "General";
     location_info := mklocation "" "" "Karnataka" "";
     completeness_score := 0.1%float;
     data_quality := mkquality 0.1%float "low" "recent" "low";
     processed_at := now_iso clk |}.

(** The [try] block of [clean_college_data].  The two calls of
    [self.logger.info] write to the log and return; what can raise in them
    is the f-string that builds the message. *)
Definition clean_college_data_try (py : interp) (clk : clock)
           (raw_data : list (string * pyval)) : result CanonicalRecord :=
  let college_name := get raw_data "name" (PStr "") in
  _ <- format py college_name ;;
  let name := clean_college_name (get raw_data "name" (PStr "")) in
  let location := clean_location (get raw_data "location" (PStr "")) in
  let address := clean_address (get raw_data "address" (PStr "")) in
  phone <- clean_phone_numbers (get raw_data "phone" (PList [])) ;;
  email <- clean_email_addresses (get raw_data "email" (PList [])) ;;
  website <- clean_website_url py (get raw_data "website" (PStr "")) ;;
  courses <- clean_and_categorize_courses (get raw_data "courses" (PList [])) ;;
  facilities <- clean_and_categorize_facilities (get raw_data "facilities" (PList [])) ;;
  let description := clean_description (get raw_data "description" (PStr "")) in
  established <- clean_establishment_year py clk (get raw_data "established" (PStr "")) ;;
  let affiliation := clean_affiliation (get raw_data "affiliation" (PStr "")) in
  let source_url := get raw_data "source_url" (PStr "") in
  images <- clean_image_urls (get raw_data "images" (PList [])) ;;
  data_quality <- assess_data_quality raw_data ;;
  let cleaned_data :=
    {| name := PStr name;
       location := PStr location;
       address := address;
       phone := phone;
       email := email;
       website := website;
       courses := courses;
       facilities := facilities;
       description := PStr description;
       established := established;
       affiliation := affiliation;
       source_url := source_url;
       images := images;
       data_quality := data_quality;
       processed_at := now_iso clk;
       college_type := determine_college_type courses;
       location_info := extract_location_details location;
       completeness_score :=
         calculate_completeness name location phone email courses facilities
                                description |} in
  _ <- format py (PStr name) ;;   (* cleaned_data['name'] *)
  Ok cleaned_data.

(** [clean_college_data(raw_data)]: the [try] block, and the handler of
    [except Exception].  The handler first builds the message of
    [self.logger.error] from [college_name] and [str(e)] (the text of the
    exception caught, which always exists); an exception of that f-string
    leaves the function.  Then it returns the minimal record.  (The [try]
    block binds [college_name] in its first statement, which cannot raise
    on a dict.) *)
Definition clean_college_data (py : interp) (clk : clock)
           (raw_data : list (string * pyval)) : result CanonicalRecord :=
  match clean_college_data_try py clk raw_data with
  | Ok cleaned_data => Ok cleaned_data
  | Raise _ =>
      let college_name := get raw_data "name" (PStr "") in
      _ <- format py college_name ;;
      Ok (create_minimal_clean_data clk raw_data)
  end.

End DataProcessor.


(* ================================================================== *)
(** ** [scraper.py]: the establishment-year step of
       [extract_college_info_from_html] *)
(* ================================================================== *)

(** The parsed page: elements and the text between them.  (Parsing the
    markup is [BeautifulSoup]'s work; comments and other special strings
    are left out.) *)
Inductive node : Type :=
| Text : string -> node
| Elem : string -> list node -> node.

Module Scraper.
Import PyStr Re.

(** [tag.get_text()] *)
Fixpoint get_text (n : node) : string :=
  match n with
  | Text s => s
  | Elem _ children => String.concat EmptyString (map get_text children)
  end.

(** For each string of the page, in document order, that
    [soup.find_all(text=pattern)] returns: [element.parent.get_text()].
    [parent_text] is the text of the element that holds [n]. *)
Fixpoint parent_texts (pattern : regex) (parent_text : string) (n : node)
  : list string :=
  match n with
  | Text s =>
      match search pattern s with
      | Some _ => [parent_text]
      | None => []
      end
  | Elem _ children =>
      flat_map (parent_texts pattern (get_text n)) children
  end.

Definition established_keywords : list string :=
  [ "established"; "founded"; "started"; "inception" ].

(** [year_pattern], the same pattern as the cleaner's. *)
Definition year_pattern : regex := DataProcessor.re_year.

(** The inner loop: the first text with a year sets the field and breaks;
    the value is [years[0]] of [re.findall]. *)
Fixpoint first_year (texts : list string) (established : string) : string :=
  match texts with
  | [] => established
  | text :: rest =>
      match findall year_pattern text with
      | y :: _ => y
      | [] => first_year rest established
      end
  end.

(** The loop over [established_keywords] on the parsed page [soup];
    [college_info['established']] starts as the empty string. *)
Definition extract_established (soup : node) : string :=
  fold_left
    (fun established keyword =>
       first_year (parent_texts (lit_i keyword) EmptyString soup) established)
    established_keywords EmptyString.

End Scraper.

(* ================================================================== *)
(** ** Re-serialisation of a canonical record *)
(* ================================================================== *)


(** Two category mappings are equal as Python dicts when every key has the
    same value in both. *)
Fixpoint dict_lookup (k : string) (d : list (string * list string))
  : option (list string) :=
  match d with
  | [] => None
  | (k', v) :: rest => if String.eqb k' k then Some v else dict_lookup k rest
  end.

Definition dict_equal (d1 d2 : list (string * list string)) : Prop :=
  forall k, dict_lookup k d1 = dict_lookup k d2.


(* ================================================================== *)
(** * Properties *)
(* ================================================================== *)

Import PyStr Re Py Utils DataProcessor Scraper.

(** ** Tactics and basic facts *)

(** Split a successful run of the error monad into its successful steps. *)
Ltac bind_inv H :=
  unfold bind in H;
  repeat match type of H with
         | context [match ?m with Ok _ => _ | Raise _ => _ end] =>
             let E := fresh "E" in destruct m eqn:E; try discriminate H
         end.

Lemma Ok_inj {A : Type} (a b : A) : Ok a = Ok b -> a = b.
Proof. intros H. now injection H. Qed.

Lemma chars_str (l : list ascii) : chars (str l) = l.
Proof. apply list_ascii_of_string_of_list_ascii. Qed.

Lemma str_chars (s : string) : str (chars s) = s.
Proof. apply string_of_list_ascii_of_string. Qed.

Lemma len_str (l : list ascii) : len (str l) = length l.
Proof.
  unfold len, str. induction l as [|c l IH]; simpl; [reflexivity | now rewrite IH].
Qed.

Lemma mem_true_iff (s : string) (l : list string) : mem s l = true <-> In s l.
Proof.
  unfold mem. rewrite existsb_exists. split.
  - intros (x & Hin & Heq). apply String.eqb_eq in Heq. now subst.
  - intros Hin. exists s. split; [assumption | apply String.eqb_refl].
Qed.

Lemma mem_false_iff (s : string) (l : list string) : mem s l = false <-> ~ In s l.
Proof.
  rewrite <- mem_true_iff. destruct (mem s l); split; intros H;
    try congruence; try discriminate.
Qed.

(** The sample clock used to run the cleaner on concrete records. *)
Definition sample_clock : clock := mkclock 2025 "2025-01-01T00:00:00".

(** The sample interpreter: CPython's default digit limit of 4300, room
    for 1000 levels of [repr], and a urllib that accepts every host with
    both brackets. *)
Definition sample_interp : interp := mkinterp 4300 1000 (fun _ => true).

(** ** Rendering a value as text *)

(** A string is its own text: its f-string field never raises. *)
Lemma format_str (py : interp) (s : string) : format py (PStr s) = Ok s.
Proof. reflexivity. Qed.



(** [n] empty lists inside one another: [[[...[]...]]]. *)
Fixpoint nested (n : nat) : pyval :=
  match n with
  | 0 => PList []
  | S k => PList [nested k]
  end.

(** A nesting deeper than the room for [repr] raises [RecursionError]. *)
Lemma repr_in_nested (py : interp) (d : nat) :
  forall n, d < n -> repr_in py d (nested n) = Raise RecursionError.
Proof.
  induction d as [| d IH]; intros n Hn; destruct n as [| n]; try lia.
  - reflexivity.
  - cbn [nested repr_in map sequence bind]. rewrite IH by lia. reflexivity.
Qed.

Lemma format_nested (py : interp) :
  format py (nested (S (repr_depth py))) = Raise RecursionError.
Proof. apply (repr_in_nested py (repr_depth py)). lia. Qed.

(** ** The failure path *)

(** A non-iterable [phone] makes the [try] block raise. *)
Definition raw_bad_phone : list (string * pyval) :=
  [ ("name", PStr "X"); ("phone", PInt 5); ("source_url", PStr "http://a.edu") ].

Lemma clean_try_raises_on_bad_phone :
  clean_college_data_try sample_interp sample_clock raw_bad_phone = Raise TypeError.
Proof. vm_compute. reflexivity. Qed.

(** The [try] block gets past its first log message only when the name
    can be rendered. *)
Lemma clean_try_name_formats (py : interp) (clk : clock)
      (raw : list (string * pyval)) (r : CanonicalRecord) :
  clean_college_data_try py clk raw = Ok r ->
  exists s, format py (get raw "name" (PStr "")) = Ok s.
Proof.
  unfold clean_college_data_try. intros H.
  destruct (format py (get raw "name" (PStr ""))) as [s | e]; [now exists s |].
  discriminate H.
Qed.

(** A name that cannot be rendered stops the [try] block at its first log
    message and the handler at its own: the exception leaves the cleaner. *)
Lemma clean_raises_with_name (py : interp) (clk : clock)
      (raw : list (string * pyval)) (e : exn) :
  format py (get raw "name" (PStr "")) = Raise e ->
  clean_college_data py clk raw = Raise e.
Proof.
  intros H. unfold clean_college_data, clean_college_data_try.
  rewrite H. reflexivity.
Qed.


(** A record the cleaner returns is the record of the [try] block or, the
    block having raised, the minimal one. *)
Lemma clean_ok_cases (py : interp) (clk : clock)
      (raw : list (string * pyval)) (r : CanonicalRecord) :
  clean_college_data py clk raw = Ok r ->
  clean_college_data_try py clk raw = Ok r \/
  ((exists e, clean_college_data_try py clk raw = Raise e) /\
   (exists s, format py (get raw "name" (PStr "")) = Ok s) /\
   r = create_minimal_clean_data clk raw).
Proof.
  unfold clean_college_data.
  destruct (clean_college_data_try py clk raw) as [c | e] eqn:Htry.
  - intros H. left. exact H.
  - destruct (format py (get raw "name" (PStr ""))) as [s | e'] eqn:Hf;
      cbn [bind]; intros H; [| discriminate H].
    right. split; [now exists e |]. split; [now exists s |].
    now apply Ok_inj in H.
Qed.

(** The only exception that leaves the cleaner is the one of rendering
    the name. *)
Lemma clean_raise_cases (py : interp) (clk : clock)
      (raw : list (string * pyval)) (e : exn) :
  clean_college_data py clk raw = Raise e ->
  format py (get raw "name" (PStr "")) = Raise e.
Proof.
  unfold clean_college_data.
  destruct (clean_college_data_try py clk raw) as [c | e0]; [discriminate |].
  destruct (format py (get raw "name" (PStr ""))) as [s | e']; cbn [bind];
    [discriminate |].
  intros H. injection H as ->. reflexivity.
Qed.

(** On any interpreter a name nested one level deeper than [repr] has
    room for makes the cleaner raise. *)
Lemma clean_raises_on_deep_name (py : interp) (clk : clock) :
  clean_college_data py clk [ ("name", nested (S (repr_depth py))) ]
  = Raise RecursionError.
Proof.
  apply clean_raises_with_name.
  change (get [("name", nested (S (repr_depth py)))] "name" (PStr ""))
    with (nested (S (repr_depth py))).
  apply format_nested.
Qed.




(** C10. [source_url] is the raw record's [source_url] (the empty string
    when the key is absent), untouched, on the normal path and on the
    failure path alike, so in every record the cleaner returns (it returns
    none only when rendering the name raises). *)
Theorem source_url_verbatim :
  forall (py : interp) (clk : clock) (raw : list (string * pyval)),
    (forall r, clean_college_data_try py clk raw = Ok r ->
               source_url r = get raw "source_url" (PStr "")) /\
    source_url (create_minimal_clean_data clk raw) = get raw "source_url" (PStr "") /\
    match clean_college_data py clk raw with
    | Ok r => source_url r = get raw "source_url" (PStr "")
    | Raise e => format py (get raw "name" (PStr "")) = Raise e
    end.
Proof.
  intros py clk raw.
  assert (Hnormal : forall r, clean_college_data_try py clk raw = Ok r ->
                              source_url r = get raw "source_url" (PStr "")).
  { intros r H. unfold clean_college_data_try in H. bind_inv H.
    injection H as <-. reflexivity. }
  split; [exact Hnormal |]. split; [reflexivity |].
  destruct (clean_college_data py clk raw) as [r | e] eqn:Hclean;
    [| now apply clean_raise_cases in Hclean].
  apply clean_ok_cases in Hclean.
  destruct Hclean as [Htry | (_ & _ & ->)]; [now apply Hnormal | reflexivity].
Qed.

(** ** Concrete scenarios *)

Definition raw_test_college : list (string * pyval) :=
  [ ("name", PStr "Test College") ].

(** C2. On the record whose only field is [name = "Test College"] the
    cleaner yields [data_quality.completeness = 0.2], but
    [completeness_score = 0.5]: the dicts under [courses] and [facilities]
    always have keys, so their weights 0.2 and 0.1 are added to the
    weight of [name]. *)
Theorem test_college_scores :
  forall (py : interp) (clk : clock),
    match clean_college_data py clk raw_test_college with
    | Ok r => completeness_score r = 0.5%float /\
              completeness (data_quality r) = 0.2%float /\
              name r = PStr "Test College"
    | Raise _ => False
    end.
Proof. intros py clk. vm_compute. repeat split. Qed.

Definition scenario3_courses : pyval :=
  PList [ PStr "B.Tech Computer Science"; PStr "MBA Finance"; PStr "Painting Workshop" ].

Definition scenario3_claimed : list (string * list string) :=
  [ ("Computer Science", ["B.Tech Computer Science"]);
    ("Management", ["MBA Finance"]);
    ("Other", ["Painting Workshop"]) ].

(** C3, as amended. The three courses of scenario 3 are categorised as
    Engineering, Management and Other: [computer science] is a keyword of
    Engineering, which is declared before Computer Science. *)
Theorem scenario3_categories :
  clean_and_categorize_courses scenario3_courses =
  Ok {| items := ["B.Tech Computer Science"; "MBA Finance"; "Painting Workshop"];
        categories := [ ("Engineering", ["B.Tech Computer Science"]);
                        ("Management", ["MBA Finance"]);
                        ("Other", ["Painting Workshop"]) ];
        total := 3;
        unique_categories := Some 3 |}.
Proof. vm_compute. reflexivity. Qed.

(** C3, as stated, fails: the mapping produced has no [Computer Science]
    key, so it is not the claimed mapping. *)
Lemma scenario3_not_claimed :
  exists c,
    clean_and_categorize_courses scenario3_courses = Ok c /\
    dict_lookup "Computer Science" (categories c) = None /\
    dict_lookup "Computer Science" scenario3_claimed =
      Some ["B.Tech Computer Science"] /\
    ~ dict_equal (categories c) scenario3_claimed.
Proof.
  eexists. split; [vm_compute; reflexivity |].
  split; [vm_compute; reflexivity |].
  split; [vm_compute; reflexivity |].
  intros Heq. specialize (Heq "Computer Science"). vm_compute in Heq.
  discriminate Heq.
Qed.

(** ** Classification *)

(** Some keyword of the list is contained in the lower-cased label. *)
Definition label_matches (keywords : list string) (label_lower : string) : Prop :=
  exists keyword, In keyword keywords /\ contains keyword label_lower = true.

(** The rule in the words of the specification: the category is the first
    one, in the order of the table, with a matching keyword; it is [Other]
    when no category has one. *)
Inductive first_match (table : list (string * list string)) (label_lower : string)
  : string -> Prop :=
| fm_hit : forall earlier category keywords later,
    table = (earlier ++ (category, keywords) :: later)%list ->
    (forall c kws, In (c, kws) earlier -> ~ label_matches kws label_lower) ->
    label_matches keywords label_lower ->
    first_match table label_lower category
| fm_other :
    (forall c kws, In (c, kws) table -> ~ label_matches kws label_lower) ->
    first_match table label_lower "Other".

Lemma existsb_label_matches (keywords : list string) (l : string) :
  existsb (fun keyword => contains keyword l) keywords = true <->
  label_matches keywords l.
Proof. unfold label_matches. apply existsb_exists. Qed.

Lemma existsb_no_label_match (keywords : list string) (l : string) :
  existsb (fun keyword => contains keyword l) keywords = false <->
  ~ label_matches keywords l.
Proof.
  rewrite <- existsb_label_matches.
  destruct (existsb _ keywords); split; intros H; congruence.
Qed.

Lemma categorize_skips (earlier rest : list (string * list string)) (l : string) :
  (forall c kws, In (c, kws) earlier -> ~ label_matches kws l) ->
  categorize (earlier ++ rest)%list l = categorize rest l.
Proof.
  induction earlier as [| [c kws] earlier IH]; intros Hno; simpl.
  - reflexivity.
  - assert (Hc : existsb (fun keyword => contains keyword l) kws = false).
    { apply existsb_no_label_match. apply (Hno c). now left. }
    rewrite Hc. apply IH. intros c' kws' Hin. apply (Hno c'). now right.
Qed.

Lemma categorize_is_first_match (table : list (string * list string)) (l : string) :
  first_match table l (categorize table l).
Proof.
  induction table as [| [c kws] table IH]; simpl.
  - apply fm_other. intros c kws [].
  - destruct (existsb (fun keyword => contains keyword l) kws) eqn:Hc.
    + apply (fm_hit _ _ [] c kws table); [reflexivity | intros ? ? [] |].
      now apply existsb_label_matches.
    + apply existsb_no_label_match in Hc.
      destruct IH as [earlier c' kws' later Htab Hno Hyes | Hno].
      * apply (fm_hit _ _ ((c, kws) :: earlier) c' kws' later);
          [now rewrite Htab | | assumption].
        intros c0 kws0 [Heq | Hin]; [now injection Heq as <- <- | now apply (Hno c0)].
      * apply fm_other.
        intros c0 kws0 [Heq | Hin]; [now injection Heq as <- <- | now apply (Hno c0)].
Qed.

(** C6. The classification loop is the first-match rule: for every table
    and label, the category it returns is the first category in
    declaration order one of whose keywords the lower-cased label
    contains, whatever later categories also match, and it is [Other]
    exactly when no category matches. *)
Theorem classification_first_match :
  forall (table : list (string * list string)) (label category : string),
    first_match table (lower label) category <->
    categorize table (lower label) = category.
Proof.
  intros table label category. split.
  - intros H. destruct H as [earlier c kws later Htab Hno Hyes | Hno].
    + rewrite Htab, categorize_skips by assumption. simpl.
      apply existsb_label_matches in Hyes. now rewrite Hyes.
    + rewrite <- (app_nil_r table), categorize_skips by assumption. reflexivity.
  - intros <-. apply categorize_is_first_match.
Qed.

(** The cleaner files a course under the category [categorize] returns for
    its cleaned, lower-cased text. *)
Lemma single_course_categories (s : string) :
  let item := clean_text (PStr s) in
  Nat.ltb (len item) 3 || Nat.ltb 100 (len item) = false ->
  clean_and_categorize_courses (PList [PStr s]) =
  Ok {| items := [item];
        categories := [ (categorize course_categories (lower item), [item]) ];
        total := 1;
        unique_categories := Some 1 |}.
Proof.
  intros item Hlen. subst item.
  unfold clean_and_categorize_courses, clean_and_categorize.
  cbn [truthy iter bind negb fold_left]. unfold categorize_step.
  cbn [fst snd]. rewrite Hlen.
  generalize (clean_text (PStr s)) as item. intros item.
  unfold categorize, course_categories.
  repeat match goal with
         | |- context [existsb ?f ?l] => destruct (existsb f l)
         end; reflexivity.
Qed.

(** A label with keywords of two categories: [computer science] is listed
    under Engineering and under Computer Science, and Engineering wins. *)
Example computer_science_is_engineering :
  categorize course_categories (lower "M.Sc Computer Science") = "Engineering".
Proof. vm_compute. reflexivity. Qed.

(** ** Bounds and uniqueness of the sequence fields *)

Lemma NoDup_firstn_keep {A : Type} (n : nat) (l : list A) :
  NoDup l -> NoDup (firstn n l).
Proof.
  revert l. induction n as [| n IH]; intros [| x l] H; simpl; try constructor.
  - inversion H as [| ? ? Hx Hl]; subst. intros Hin. apply Hx.
    rewrite <- (firstn_skipn n l). apply in_or_app. now left.
  - inversion H; subst. now apply IH.
Qed.

(** A loop that either leaves its state alone or appends an item it has
    not seen keeps the collected list free of duplicates, and every
    collected item in the seen set. *)
Definition appends_unseen {A : Type}
           (step : list string * list string -> A -> list string * list string)
  : Prop :=
  forall st x,
    step st x = st \/
    exists y, ~ In y (snd st) /\ step st x = ((fst st ++ [y])%list, y :: snd st).

Definition dedup_state (st : list string * list string) : Prop :=
  NoDup (fst st) /\ forall y, In y (fst st) -> In y (snd st).

Lemma dedup_fold {A : Type}
      (step : list string * list string -> A -> list string * list string) :
  appends_unseen step ->
  forall xs st, dedup_state st -> dedup_state (fold_left step xs st).
Proof.
  intros Hstep xs. induction xs as [| x xs IH]; intros st Hst; simpl.
  - exact Hst.
  - apply IH. destruct (Hstep st x) as [-> | (y & Hy & ->)]; [exact Hst |].
    destruct Hst as [Hnd Hsub]. split; simpl.
    + apply NoDup_app; [exact Hnd | constructor; [intros [] | constructor] |].
      intros z Hz [<- | []]. apply Hy. now apply Hsub.
    + intros z Hz. apply in_app_or in Hz. destruct Hz as [Hz | [<- | []]].
      * right. now apply Hsub.
      * now left.
Qed.

Lemma phone_step_appends_unseen : appends_unseen phone_step.
Proof.
  intros st x. unfold phone_step. destruct x; try now left.
  destruct (normalize_phone_number s) as [normalized |]; [| now left].
  destruct (mem normalized (snd st)) eqn:Hmem; [now left |].
  right. exists normalized. split; [now apply mem_false_iff | reflexivity].
Qed.

Lemma email_step_appends_unseen : appends_unseen email_step.
Proof.
  intros st x. unfold email_step. destruct x; try now left.
  destruct (validate_email (lower (strip s))); [| now left].
  destruct (mem (lower (strip s)) (snd st)) eqn:Hmem; [now left |].
  right. exists (lower (strip s)). split; [now apply mem_false_iff | reflexivity].
Qed.

Lemma dedup_state_init : dedup_state ([], []).
Proof. split; [constructor | intros y []]. Qed.

Lemma clean_phone_numbers_bounded (v : pyval) (l : list string) :
  clean_phone_numbers v = Ok l -> length l <= 5 /\ NoDup l.
Proof.
  unfold clean_phone_numbers. destruct (negb (truthy v)).
  - intros H. apply Ok_inj in H. subst. split; [simpl; lia | constructor].
  - intros H. bind_inv H. apply Ok_inj in H. subst. split.
    + apply firstn_le_length.
    + apply NoDup_firstn_keep.
      apply (dedup_fold phone_step phone_step_appends_unseen _ _ dedup_state_init).
Qed.

Lemma clean_email_addresses_bounded (v : pyval) (l : list string) :
  clean_email_addresses v = Ok l -> length l <= 3 /\ NoDup l.
Proof.
  unfold clean_email_addresses. destruct (negb (truthy v)).
  - intros H. apply Ok_inj in H. subst. split; [simpl; lia | constructor].
  - intros H. bind_inv H. apply Ok_inj in H. subst. split.
    + apply firstn_le_length.
    + apply NoDup_firstn_keep.
      apply (dedup_fold email_step email_step_appends_unseen _ _ dedup_state_init).
Qed.

Lemma clean_and_categorize_bounded
      (table : list (string * list string)) (cap : nat) (v : pyval) (c : categorized) :
  clean_and_categorize table cap v = Ok c -> length (items c) <= cap.
Proof.
  unfold clean_and_categorize. destruct (negb (truthy v)).
  - intros H. apply Ok_inj in H. subst. simpl. lia.
  - intros H. bind_inv H. apply Ok_inj in H. subst. simpl. apply firstn_le_length.
Qed.

Lemma clean_image_urls_bounded (v : pyval) (l : list string) :
  clean_image_urls v = Ok l -> length l <= 5.
Proof.
  unfold clean_image_urls. destruct (negb (truthy v)).
  - intros H. apply Ok_inj in H. subst. simpl. lia.
  - intros H. bind_inv H. apply Ok_inj in H. subst. apply firstn_le_length.
Qed.

(** The fields of a record built by the [try] block are the results of the
    field cleaners on the raw fields. *)
Lemma clean_try_fields (py : interp) (clk : clock) (raw : list (string * pyval))
      (r : CanonicalRecord) :
  clean_college_data_try py clk raw = Ok r ->
  clean_phone_numbers (get raw "phone" (PList [])) = Ok (phone r) /\
  clean_email_addresses (get raw "email" (PList [])) = Ok (email r) /\
  clean_website_url py (get raw "website" (PStr "")) = Ok (website r) /\
  clean_and_categorize_courses (get raw "courses" (PList [])) = Ok (courses r) /\
  clean_and_categorize_facilities (get raw "facilities" (PList [])) = Ok (facilities r) /\
  clean_image_urls (get raw "images" (PList [])) = Ok (images r) /\
  assess_data_quality raw = Ok (data_quality r) /\
  clean_establishment_year py clk (get raw "established" (PStr ""))
    = Ok (established r) /\
  source_url r = get raw "source_url" (PStr "").
Proof.
  intros H. unfold clean_college_data_try in H. bind_inv H.
  injection H as <-. simpl. repeat split; reflexivity.
Qed.

Definition raw_repeated_course : list (string * pyval) :=
  [ ("name", PStr "Test College");
    ("courses", PList [PStr "MBA"; PStr "MBA"]);
    ("facilities", PList [PStr "Library"; PStr "Library"]);
    ("images", PList [PStr "http://a.in/x.png"; PStr "http://a.in/x.png"]) ].

(** C4, as stated, fails: a course (facility, image) that occurs twice in
    the raw record occurs twice in the canonical record. *)
Lemma repeated_course_is_kept :
  exists r,
    clean_college_data sample_interp sample_clock raw_repeated_course = Ok r /\
    items (courses r) = ["MBA"; "MBA"] /\
    items (facilities r) = ["Library"; "Library"] /\
    images r = ["http://a.in/x.png"; "http://a.in/x.png"] /\
    ~ NoDup (items (courses r)) /\
    ~ NoDup (items (facilities r)) /\
    ~ NoDup (images r).
Proof.
  eexists. split; [vm_compute; reflexivity |]. simpl.
  repeat split; intros H; inversion H as [| ? ? Hx ?]; subst; apply Hx; now left.
Qed.

(** C4, as amended. In every record the cleaner returns, for whatever raw
    record, [phone] has at most 5, [email] at most 3, the course items at
    most 20, the facility items at most 15 and [images] at most 5 entries,
    and [phone] and [email] have no repeated entry.  (The cleaner returns
    no record only when rendering the name raises.) *)
Theorem clean_sequences_bounded :
  forall (py : interp) (clk : clock) (raw : list (string * pyval)),
    match clean_college_data py clk raw with
    | Ok r =>
        length (phone r) <= 5 /\ length (email r) <= 3 /\
        length (items (courses r)) <= 20 /\
        length (items (facilities r)) <= 15 /\
        length (images r) <= 5 /\
        NoDup (phone r) /\ NoDup (email r)
    | Raise e => format py (get raw "name" (PStr "")) = Raise e
    end.
Proof.
  intros py clk raw.
  destruct (clean_college_data py clk raw) as [r | e] eqn:Hclean;
    [| now apply clean_raise_cases in Hclean].
  apply clean_ok_cases in Hclean. destruct Hclean as [Htry | (_ & _ & ->)].
  - destruct (clean_try_fields _ _ _ _ Htry)
      as (Hp & He & _ & Hc & Hf & Hi & _).
    apply clean_phone_numbers_bounded in Hp.
    apply clean_email_addresses_bounded in He.
    apply clean_and_categorize_bounded in Hc.
    apply clean_and_categorize_bounded in Hf.
    apply clean_image_urls_bounded in Hi.
    tauto.
  - simpl. repeat split; try lia; constructor.
Qed.

(** ** Cleaning again *)

Ltac each_ascii c := destruct c as [[] [] [] [] [] [] [] []].

Lemma lower_char_idem (c : ascii) : lower_char (lower_char c) = lower_char c.
Proof. each_ascii c; reflexivity. Qed.

Lemma is_space_lower_char (c : ascii) : is_space (lower_char c) = is_space c.
Proof. each_ascii c; reflexivity. Qed.

Lemma lower_idem (s : string) : lower (lower s) = lower s.
Proof.
  unfold lower. rewrite chars_str, map_map. f_equal.
  apply map_ext. intros c. apply lower_char_idem.
Qed.

Lemma lstrip_chars_map_lower (l : list ascii) :
  lstrip_chars (map lower_char l) = map lower_char (lstrip_chars l).
Proof.
  induction l as [| c l IH]; simpl; [reflexivity |].
  rewrite is_space_lower_char. destruct (is_space c); [exact IH | reflexivity].
Qed.

Lemma strip_lower (s : string) : strip (lower s) = lower (strip s).
Proof.
  unfold strip, lower. rewrite !chars_str. f_equal.
  rewrite lstrip_chars_map_lower, <- map_rev, lstrip_chars_map_lower, <- map_rev.
  reflexivity.
Qed.

Lemma lstrip_chars_idem (l : list ascii) :
  lstrip_chars (lstrip_chars l) = lstrip_chars l.
Proof.
  induction l as [| c l IH]; simpl; [reflexivity |].
  destruct (is_space c) eqn:Hc; [exact IH | simpl; now rewrite Hc].
Qed.

(** A list that does not start with white space. *)
Definition no_lead_space (l : list ascii) : Prop :=
  match l with
  | [] => True
  | c :: _ => is_space c = false
  end.

Lemma lstrip_chars_no_lead (l : list ascii) : no_lead_space (lstrip_chars l).
Proof.
  induction l as [| c l IH]; simpl; [exact I |].
  destruct (is_space c) eqn:Hc; [exact IH | exact Hc].
Qed.

Lemma lstrip_chars_fixed (l : list ascii) : no_lead_space l -> lstrip_chars l = l.
Proof. destruct l as [| c l]; simpl; [reflexivity | now intros ->]. Qed.

(** Stripping at the right end, on the reversed list, keeps a list without
    leading white space free of it. *)
Lemma rstrip_no_lead (l : list ascii) :
  no_lead_space l -> no_lead_space (rev (lstrip_chars (rev l))).
Proof.
  induction l as [| c l IH] using rev_ind; intros H; [exact I |].
  rewrite rev_app_distr. simpl rev at 2. simpl app. simpl lstrip_chars.
  destruct (is_space c) eqn:Hc.
  - apply IH. destruct l; [exact I | exact H].
  - simpl. rewrite rev_involutive. exact H.
Qed.

Lemma strip_idem (s : string) : strip (strip s) = strip s.
Proof.
  unfold strip. rewrite chars_str. apply f_equal.
  set (l := lstrip_chars (chars s)).
  rewrite (lstrip_chars_fixed (rev (lstrip_chars (rev l)))).
  - now rewrite rev_involutive, lstrip_chars_idem.
  - apply rstrip_no_lead, lstrip_chars_no_lead.
Qed.

Lemma lower_strip_idem (s : string) :
  lower (strip (lower (strip s))) = lower (strip s).
Proof. now rewrite strip_lower, strip_idem, lower_idem. Qed.

Lemma Forall_firstn_keep {A : Type} (P : A -> Prop) (n : nat) (l : list A) :
  Forall P l -> Forall P (firstn n l).
Proof.
  intros H. rewrite <- (firstn_skipn n l) in H. now apply Forall_app in H.
Qed.

(** *** Email addresses *)

(** What every address kept by [clean_email_addresses] satisfies. *)
Definition email_clean (e : string) : Prop :=
  lower (strip e) = e /\ validate_email e = true.

Lemma email_step_collects_clean (xs : list pyval) (st : list string * list string) :
  Forall email_clean (fst st) ->
  Forall email_clean (fst (fold_left email_step xs st)).
Proof.
  revert st. induction xs as [| x xs IH]; intros st Hst; simpl; [exact Hst |].
  apply IH. unfold email_step. destruct x; try exact Hst.
  destruct (validate_email (lower (strip s))) eqn:Hv; simpl; [| exact Hst].
  destruct (mem (lower (strip s)) (snd st)); simpl; [exact Hst |].
  apply Forall_app. split; [exact Hst |].
  constructor; [| constructor]. split; [apply lower_strip_idem | exact Hv].
Qed.



(** *** Images *)

Definition image_url_ok (u : string) : bool :=
  (startswith "http://" u || startswith "https://" u)
  && existsb (fun ext => contains ext (lower u)) [".jpg"; ".jpeg"; ".png"; ".webp"].

Definition image_clean (u : string) : Prop :=
  strip u = u /\ image_url_ok u = true.

Lemma image_step_collects_clean (xs : list pyval) (acc : list string) :
  Forall image_clean acc -> Forall image_clean (fold_left image_step xs acc).
Proof.
  revert acc. induction xs as [| x xs IH]; intros acc Hacc; simpl; [exact Hacc |].
  apply IH. unfold image_step. destruct x; try exact Hacc.
  fold (image_url_ok (strip s)).
  destruct (image_url_ok (strip s)) eqn:Hok; [| exact Hacc].
  apply Forall_app. split; [exact Hacc |].
  constructor; [| constructor]. split; [apply strip_idem | exact Hok].
Qed.



(** *** Establishment year *)

(** The texts the year pattern matches: [19] or [20] and two digits. *)
Definition is_year_string (m : string) : bool :=
  match chars m with
  | [p1; p2; d1; d2] =>
      ((Ascii.eqb p1 "1" && Ascii.eqb p2 "9") || (Ascii.eqb p1 "2" && Ascii.eqb p2 "0"))
      && is_digit d1 && is_digit d2
  | _ => false
  end.

Lemma rep_at_limit {R : Type} (f : ascii -> bool) (lo h : nat)
      (b a : list ascii) (g : option (list ascii)) (k : pos -> option R) :
  Nat.leb lo h = true ->
  rep f lo (Some h) h b a g k = k (mkpos b a g).
Proof.
  intros Hlo. destruct a as [| c a]; cbn [rep below]; rewrite Hlo; [reflexivity |].
  now rewrite Nat.ltb_irrefl, andb_false_r.
Qed.

Lemma rep_two_digits {R : Type} (b t : list ascii) (g : option (list ascii))
      (k : pos -> option R) (x : R) :
  rep is_digit 2 (Some 2) 0 b t g k = Some x ->
  exists d1 d2 t',
    t = d1 :: d2 :: t' /\ is_digit d1 = true /\ is_digit d2 = true /\
    k (mkpos (d2 :: d1 :: b) t' g) = Some x.
Proof.
  destruct t as [| d1 [| d2 t']]; cbn [rep Nat.leb below Nat.ltb andb].
  - discriminate.
  - destruct (is_digit d1); cbn [andb]; discriminate.
  - destruct (is_digit d1) eqn:H1; cbn [andb]; [| discriminate].
    destruct (is_digit d2) eqn:H2; cbn [andb]; [| discriminate].
    rewrite rep_at_limit by reflexivity.
    intros H. exists d1, d2, t'. repeat split; try assumption.
    destruct (k (mkpos (d2 :: d1 :: b) t' g)); congruence.
Qed.

Lemma length_prefix_sub {A : Type} (pre b : list A) :
  length (pre ++ b)%list - length b = length pre.
Proof. rewrite length_app. lia. Qed.

Lemma match_at_year_shape (b a : list ascii) (n : nat) (g : option (list ascii)) :
  match_at re_year b a = Some (n, g) ->
  n = 4 /\ is_year_string (str (firstn 4 a)) = true /\
  (g = Some (chars "19") \/ g = Some (chars "20")).
Proof.
  unfold match_at, re_year. cbn [seqs alts lit rmatch ch before after grp1].
  destruct (at_word_boundary (mkpos b a None)); [| discriminate].
  destruct a as [| p1 [| p2 t]]; cbn [rep]; try discriminate.
  - destruct (Ascii.eqb "1" p1), (Ascii.eqb "2" p1); discriminate.
  - change (p2 :: p1 :: b) with ([p2; p1] ++ b)%list.
    rewrite (length_prefix_sub [p2; p1] b). cbn [length app].
    cbn [firstn rev app].
    assert (Hend : forall (g0 : option (list ascii)) d1 d2 t',
               (if at_word_boundary (mkpos (d2 :: d1 :: p2 :: p1 :: b) t' g0)
                then Some (length (d2 :: d1 :: p2 :: p1 :: b) - length b, g0)
                else None) = Some (n, g) -> n = 4 /\ g = g0).
    { intros g0 d1 d2 t' H. destruct (at_word_boundary _); [| discriminate].
      injection H as <- <-. split; [| reflexivity].
      apply (length_prefix_sub [d2; d1; p2; p1] b). }
    intros H.
    destruct (Ascii.eqb_spec "1" p1) as [<- | _];
      [destruct (Ascii.eqb_spec "9" p2) as [<- | _] |].
    + destruct (rep is_digit 2 (Some 2) 0 _ t _ _) as [x |] eqn:Hrep.
      * injection H as ->.
        apply rep_two_digits in Hrep.
        destruct Hrep as (d1 & d2 & t' & -> & H1 & H2 & Hk).
        cbn [before after grp1] in Hk. apply Hend in Hk. destruct Hk as [-> ->].
        repeat split; [| now left].
        unfold is_year_string. rewrite chars_str. cbn [firstn].
        now rewrite H1, H2.
      * cbn in H. discriminate.
    + cbn in H. discriminate.
    + destruct (Ascii.eqb_spec "2" p1) as [<- | _];
        [destruct (Ascii.eqb_spec "0" p2) as [<- | _] |]; try discriminate.
      destruct (rep is_digit 2 (Some 2) 0 _ t _ _) as [x |] eqn:Hrep; [| discriminate].
      injection H as ->.
      apply rep_two_digits in Hrep.
      destruct Hrep as (d1 & d2 & t' & -> & H1 & H2 & Hk).
      cbn [before after grp1] in Hk. apply Hend in Hk. destruct Hk as [-> ->].
      repeat split; [| now right].
      unfold is_year_string. rewrite chars_str. cbn [firstn].
      now rewrite H1, H2.
Qed.

Lemma search_year_shape (a b : list ascii) (m g : string) :
  search_from re_year b a = Some (m, g) -> is_year_string m = true.
Proof.
  revert b. induction a as [| c a IH]; intros b; cbn [search_from].
  - destruct (match_at re_year b []) as [[n g0] |] eqn:Hm; [| discriminate].
    apply match_at_year_shape in Hm. destruct Hm as (-> & Hy & _).
    intros H. injection H as <- _. exact Hy.
  - destruct (match_at re_year b (c :: a)) as [[n g0] |] eqn:Hm; [| apply IH].
    apply match_at_year_shape in Hm. destruct Hm as (-> & Hy & _).
    intros H. injection H as <- _. exact Hy.
Qed.

Lemma is_digit_cases (c : ascii) :
  is_digit c = true -> In c (chars "0123456789").
Proof. each_ascii c; intros H; try discriminate H; simpl; tauto. Qed.

(** A year text is found whole by the pattern, and printing the number it
    denotes gives the text back. *)
Lemma year_string_fixed (m : string) :
  is_year_string m = true ->
  match search re_year m with
  | Some (m', _) => m' = m
  | None => False
  end /\
  int_str (int_of_digits m) = m /\ truthy (PStr m) = true.
Proof.
  unfold is_year_string. intros H.
  assert (Hm : m = str (chars m)) by (symmetry; apply str_chars).
  revert H Hm.
  destruct (chars m) as [| p1 [| p2 [| d1 [| d2 [| ? ?]]]]];
    intros H Hm; try discriminate H.
  subst m. apply andb_prop in H. destruct H as [H H2].
  apply andb_prop in H. destruct H as [Hp H1].
  apply is_digit_cases in H1, H2.
  assert (Hp' : (p1 = "1" /\ p2 = "9")%char \/ (p1 = "2" /\ p2 = "0")%char).
  { apply orb_prop in Hp.
    destruct Hp as [Hp | Hp]; apply andb_prop in Hp; destruct Hp as [Ha Hb];
      apply Ascii.eqb_eq in Ha, Hb; tauto. }
  simpl in H1, H2.
  destruct Hp' as [[-> ->] | [-> ->]];
    repeat match goal with
           | H : _ \/ _ |- _ => destruct H as [<- | H]
           | H : False |- _ => contradiction H
           end;
    vm_compute; repeat split.
Qed.


(** *** The failure path, characterised *)

(** The values [for] and [in] accept. *)
Definition iterable (v : pyval) : bool :=
  match v with
  | PStr _ | PList _ | PDict _ => true
  | PNone | PBool _ | PInt _ => false
  end.

Lemma any_str_in_iterable (needles : list string) (v : pyval) :
  iterable v = true -> exists b, any_str_in needles v = Ok b.
Proof.
  intros Hv. induction needles as [| n needles IH]; simpl; [now exists false |].
  assert (Hn : exists b, str_in n v = Ok b)
    by (destruct v; try discriminate Hv; simpl; eexists; reflexivity).
  destruct Hn as [b ->]. simpl. destruct b; [now exists true | exact IH].
Qed.

Lemma any_str_in_not_iterable (n : string) (needles : list string) (v : pyval) :
  iterable v = false -> any_str_in (n :: needles) v = Raise TypeError.
Proof. intros Hv. destruct v; try discriminate Hv; reflexivity. Qed.

(** [assess_data_quality] raises exactly when [source_url] is neither a
    string nor a container. *)
Lemma assess_data_quality_ok_iff (data : list (string * pyval)) :
  (exists q, assess_data_quality data = Ok q) <->
  iterable (get data "source_url" (PStr "")) = true.
Proof.
  unfold assess_data_quality.
  destruct (iterable (get data "source_url" (PStr ""))) eqn:Hit; split;
    intros H; try reflexivity.
  - destruct (any_str_in_iterable [".edu"; ".ac.in"; ".gov.in"] _ Hit) as [b1 ->].
    destruct (any_str_in_iterable ["careers360"; "collegedunia"; "shiksha"] _ Hit)
      as [b2 ->].
    cbn [bind]. destruct b1; [eexists; reflexivity |].
    destruct b2; eexists; reflexivity.
  - destruct H as [q H]. rewrite any_str_in_not_iterable in H by assumption.
    discriminate H.
  - discriminate H.
Qed.



Lemma clean_website_url_of_str (py : interp) (w : string) :
  exists r, clean_website_url py (PStr w) = Ok r.
Proof.
  unfold clean_website_url. destruct (negb _); [eexists; reflexivity |].
  destruct (urlparse_netloc _ _) as [netloc | e]; [| eexists; reflexivity].
  destruct (negb (String.eqb netloc "")); eexists; reflexivity.
Qed.





(** ** The description bound *)

Lemma len_append (s t : string) : len (s ++ t) = len s + len t.
Proof.
  unfold len. induction s as [| c s IH]; simpl; [reflexivity | now rewrite IH].
Qed.

Lemma truncate_sentences_len (sentences : list string) :
  forall truncated,
    len truncated <= 501 -> len (truncate_sentences sentences truncated) <= 501.
Proof.
  induction sentences as [| sentence rest IH]; intros truncated Ht; simpl;
    [exact Ht |].
  destruct (Nat.leb (len (truncated ++ sentence)) 500) eqn:Hfit; [| exact Ht].
  apply IH. apply Nat.leb_le in Hfit.
  rewrite len_append in Hfit. rewrite !len_append.
  change (len ".") with 1. lia.
Qed.

Lemma clean_description_len (v : pyval) : len (clean_description v) <= 501.
Proof.
  unfold clean_description. destruct (negb (truthy v)); [simpl; lia |].
  set (d := sub re_promo (fun _ => "") (clean_text v)).
  destruct (Nat.ltb 500 (len d)) eqn:Hlong.
  - destruct (negb (String.eqb (truncate_sentences (split_on "." d) "") "")).
    + apply truncate_sentences_len. simpl. lia.
    + unfold take. rewrite len_str.
      pose proof (firstn_le_length 500 (chars d)). lia.
  - apply Nat.ltb_ge in Hlong. lia.
Qed.

(** A text of 500 letters, a full stop and one more letter. *)
Definition overlong_description : string :=
  str (repeat "a"%char 500) ++ ".b".

(** C5. The description of 500 letters followed by [.b] is cleaned to 501
    characters: the sentence test admits a sentence that fills all 500
    characters, and the full stop is appended after it.  No description is
    cleaned to more than 501 characters. *)
Theorem clean_description_overlong :
  len overlong_description = 502 /\
  clean_description (PStr overlong_description) = str (repeat "a"%char 500) ++ "." /\
  len (clean_description (PStr overlong_description)) = 501 /\
  (forall v, len (clean_description v) <= 501).
Proof.
  split; [vm_compute; reflexivity |].
  split; [vm_compute; reflexivity |].
  split; [vm_compute; reflexivity |].
  exact clean_description_len.
Qed.

(** ** The establishment year of the extractor *)

Lemma findall_year_groups (a : list ascii) :
  forall (b : list ascii) (skip : nat) (y : string),
    In y (findall_from re_year skip b a) -> y = "19" \/ y = "20".
Proof.
  induction a as [| c a IH]; intros b skip y; cbn [findall_from]; [intros [] |].
  destruct skip as [| k]; [| apply IH].
  destruct (match_at re_year b (c :: a)) as [[[| n] g] |] eqn:Hm; try apply IH.
  apply match_at_year_shape in Hm. destruct Hm as (_ & _ & Hg).
  intros [<- | Hin]; [| now apply IH in Hin].
  destruct Hg as [-> | ->]; [now left | now right].
Qed.

Definition year_fragment (e : string) : Prop := e = "" \/ e = "19" \/ e = "20".

Lemma first_year_fragment (texts : list string) (e : string) :
  year_fragment e -> year_fragment (first_year texts e).
Proof.
  intros He. induction texts as [| text rest IH]; simpl; [exact He |].
  destruct (findall year_pattern text) as [| y ys] eqn:Hf; [exact IH |].
  assert (Hy : In y (findall year_pattern text)) by (rewrite Hf; now left).
  apply findall_year_groups in Hy. right. exact Hy.
Qed.

Definition page_established_1995 : node :=
  Elem "[document]" [ Elem "p" [ Text "Established in 1995" ] ].

(** C8. On a page whose paragraph reads [Established in 1995] the
    extractor sets [established] to [19], the text of the pattern's group,
    not to the year; on every page the field is empty, [19] or [20]. *)
Theorem extract_established_fragment :
  extract_established page_established_1995 = "19" /\
  (forall soup, year_fragment (extract_established soup)).
Proof.
  split; [vm_compute; reflexivity |].
  intros soup. unfold extract_established, established_keywords. cbn [fold_left].
  repeat apply first_year_fragment. now left.
Qed.

(** ** The entity table *)

Lemma match_at_chr (f : ascii -> bool) (b : list ascii) (c : ascii) (t : list ascii) :
  match_at (Chr f) b (c :: t) = if f c then Some (1, None) else None.
Proof.
  unfold match_at. cbn [rmatch after before grp1].
  destruct (f c); [| reflexivity].
  change (c :: b) with ([c] ++ b)%list. now rewrite length_prefix_sub.
Qed.

(** Deleting the matches of a one-character class leaves only characters
    outside the class. *)
Lemma sub_chr_drops (f : ascii -> bool) (a : list ascii) :
  forall (b : list ascii) (skip : nat),
    Forall (fun c => f c = false)
           (chars (sub_from (Chr f) (fun _ => EmptyString) skip b a)).
Proof.
  induction a as [| c a IH]; intros b skip; cbn [sub_from]; [constructor |].
  destruct skip as [| k]; [| apply IH].
  rewrite match_at_chr. destruct (f c) eqn:Hc.
  - cbn [append]. apply IH.
  - constructor; [exact Hc | apply IH].
Qed.

Definition no_amp (s : string) : Prop := Forall (fun c => c <> "&"%char) (chars s).

Lemma sub_special_no_amp (s : string) :
  no_amp (sub re_special (fun _ => EmptyString) s).
Proof.
  unfold no_amp, sub, re_special.
  eapply Forall_impl; [| apply sub_chr_drops].
  intros c Hc ->. discriminate Hc.
Qed.

(** An entity starts with [&]: without that character in the text nothing
    is replaced. *)
Lemma replace_no_amp (rest new s : string) :
  no_amp s -> replace (String "&" rest) new s = s.
Proof.
  unfold replace, no_amp. induction s as [| c s IH]; intros H; [reflexivity |].
  inversion H as [| ? ? Hc Hs]; subst.
  cbn [replace_from String.prefix].
  destruct (ascii_dec "&" c) as [Heq | _]; [now elim Hc |].
  now rewrite IH.
Qed.

Lemma replace_entities_no_amp (s : string) : no_amp s -> replace_entities s = s.
Proof.
  intros H. unfold replace_entities, html_entities. cbn [fold_left fst snd].
  now rewrite !(replace_no_amp _ _ s H).
Qed.

Lemma lstrip_chars_Forall (P : ascii -> Prop) (l : list ascii) :
  Forall P l -> Forall P (lstrip_chars l).
Proof.
  induction l as [| c l IH]; intros H; simpl; [constructor |].
  destruct (is_space c); [apply IH; now inversion H | exact H].
Qed.

Lemma strip_no_amp (s : string) : no_amp s -> no_amp (strip s).
Proof.
  unfold no_amp, strip. intros H. rewrite chars_str.
  apply Forall_rev, lstrip_chars_Forall, Forall_rev, lstrip_chars_Forall, H.
Qed.

Lemma no_amp_not_contained (s : string) : no_amp s -> contains "&" s = false.
Proof.
  unfold no_amp. induction s as [| c s IH]; intros H; [reflexivity |].
  inversion H as [| ? ? Hc Hs]; subst.
  cbn [contains String.prefix].
  destruct (ascii_dec "&" c) as [Heq | _]; [now elim Hc |].
  now apply IH.
Qed.

Lemma clean_text_no_amp (v : pyval) : no_amp (clean_text v).
Proof.
  unfold clean_text. destruct v; try constructor.
  destruct (String.eqb s ""); [constructor |].
  rewrite replace_entities_no_amp by apply sub_special_no_amp.
  apply strip_no_amp, sub_special_no_amp.
Qed.

(** C7. An entity is not decoded: [&] and [;] are removed before the
    entity table is consulted, so [&amp;] leaves [amp], and no cleaned text
    contains [&]. *)
Theorem clean_text_entity_not_decoded :
  clean_text (PStr "Tom &amp; Jerry") = "Tom amp Jerry" /\
  (forall v, contains "&" (clean_text v) = false).
Proof.
  split; [vm_compute; reflexivity |].
  intros v. apply no_amp_not_contained, clean_text_no_amp.
Qed.

(** ** When the [try] block raises *)

(** A field read with [for] makes its cleaner raise exactly when it is
    truthy and not iterable; [website] when it is truthy and not a string;
    [established] when it is truthy and cannot be rendered as text. *)
Definition loop_field_ok (v : pyval) : bool := negb (truthy v) || iterable v.

Definition renders (py : interp) (v : pyval) : bool :=
  match to_str_in py v with
  | Ok _ => true
  | Raise _ => false
  end.

Definition year_field_ok (py : interp) (v : pyval) : bool :=
  negb (truthy v) || renders py v.

Definition website_field_ok (v : pyval) : bool :=
  negb (truthy v) || match v with PStr _ => true | _ => false end.

Lemma iter_ok_iff (v : pyval) :
  (exists l, iter v = Ok l) <-> iterable v = true.
Proof.
  destruct v; simpl; split; intros H;
    try first [ reflexivity
              | discriminate H
              | match type of H with ex _ => destruct H as [? H0]; discriminate H0 end
              | eexists; reflexivity ].
Qed.

Ltac loop_field_ok_iff v :=
  unfold loop_field_ok; destruct (truthy v); cbn [negb orb];
  [ destruct (iterable v) eqn:Hit;
    [ apply iter_ok_iff in Hit; destruct Hit as [l ->]; cbn [bind]; split;
      [reflexivity | eexists; reflexivity]
    | split; [| discriminate];
      intros [r H]; destruct v; try discriminate Hit; discriminate H ]
  | split; [reflexivity | eexists; reflexivity] ].

Lemma clean_phone_numbers_ok_iff (v : pyval) :
  (exists r, clean_phone_numbers v = Ok r) <-> loop_field_ok v = true.
Proof. unfold clean_phone_numbers. loop_field_ok_iff v. Qed.

Lemma clean_email_addresses_ok_iff (v : pyval) :
  (exists r, clean_email_addresses v = Ok r) <-> loop_field_ok v = true.
Proof. unfold clean_email_addresses. loop_field_ok_iff v. Qed.

Lemma clean_and_categorize_ok_iff
      (table : list (string * list string)) (cap : nat) (v : pyval) :
  (exists r, clean_and_categorize table cap v = Ok r) <-> loop_field_ok v = true.
Proof. unfold clean_and_categorize. loop_field_ok_iff v. Qed.

Lemma clean_image_urls_ok_iff (v : pyval) :
  (exists r, clean_image_urls v = Ok r) <-> loop_field_ok v = true.
Proof. unfold clean_image_urls. loop_field_ok_iff v. Qed.

Lemma clean_website_url_ok_iff (py : interp) (v : pyval) :
  (exists r, clean_website_url py v = Ok r) <-> website_field_ok v = true.
Proof.
  destruct v as [| b | z | s | l | d].
  4: { split; intros _; [apply orb_true_r | apply clean_website_url_of_str]. }
  all: unfold clean_website_url, website_field_ok;
    destruct (truthy _); cbn [negb orb]; split; intros H;
    try first [ reflexivity
              | discriminate H
              | match type of H with ex _ => destruct H as [? H0]; discriminate H0 end
              | eexists; reflexivity ].
Qed.

Lemma clean_establishment_year_ok_iff (py : interp) (clk : clock) (v : pyval) :
  (exists r, clean_establishment_year py clk v = Ok r) <-> year_field_ok py v = true.
Proof.
  unfold clean_establishment_year, year_field_ok, renders.
  destruct (truthy v); cbn [negb orb]; [| split; [reflexivity | eexists; reflexivity]].
  destruct (to_str_in py v) as [text | e]; cbn [bind].
  - split; [reflexivity | intros _].
    destruct (search re_year text) as [[m g] |]; [| eexists; reflexivity].
    destruct (_ && _); eexists; reflexivity.
  - split; [intros [r H]; discriminate H | discriminate].
Qed.

(** The [try] block of [clean_college_data] completes exactly when the
    name can be rendered, the five looped fields, [website] and
    [source_url] have usable types, and [established] can be rendered. *)
Lemma clean_try_ok_iff (py : interp) (clk : clock) (raw : list (string * pyval)) :
  (exists r, clean_college_data_try py clk raw = Ok r) <->
  renders py (get raw "name" (PStr "")) = true /\
  loop_field_ok (get raw "phone" (PList [])) = true /\
  loop_field_ok (get raw "email" (PList [])) = true /\
  website_field_ok (get raw "website" (PStr "")) = true /\
  loop_field_ok (get raw "courses" (PList [])) = true /\
  loop_field_ok (get raw "facilities" (PList [])) = true /\
  year_field_ok py (get raw "established" (PStr "")) = true /\
  loop_field_ok (get raw "images" (PList [])) = true /\
  iterable (get raw "source_url" (PStr "")) = true.
Proof.
  split.
  - intros [r H]. pose proof (clean_try_name_formats _ _ _ _ H) as [s Hs].
    apply clean_try_fields in H.
    destruct H as (Hp & He & Hw & Hc & Hf & Hi & Hq & Hy & _).
    repeat apply conj.
    + unfold renders. unfold format in Hs. now rewrite Hs.
    + apply clean_phone_numbers_ok_iff. eexists. exact Hp.
    + apply clean_email_addresses_ok_iff. eexists. exact He.
    + apply (clean_website_url_ok_iff py). eexists. exact Hw.
    + apply (clean_and_categorize_ok_iff course_categories 20). eexists. exact Hc.
    + apply (clean_and_categorize_ok_iff facility_categories 15). eexists. exact Hf.
    + apply (clean_establishment_year_ok_iff py clk). eexists. exact Hy.
    + apply clean_image_urls_ok_iff. eexists. exact Hi.
    + apply assess_data_quality_ok_iff. eexists. exact Hq.
  - intros (Hn & Hp & He & Hw & Hc & Hf & Hy & Hi & Hq).
    unfold renders in Hn.
    destruct (to_str_in py (get raw "name" (PStr ""))) as [s |] eqn:Hs;
      [| discriminate Hn].
    apply clean_phone_numbers_ok_iff in Hp. destruct Hp as [p Hp].
    apply clean_email_addresses_ok_iff in He. destruct He as [e He].
    apply (clean_website_url_ok_iff py) in Hw. destruct Hw as [w Hw].
    apply (clean_and_categorize_ok_iff course_categories 20) in Hc.
    destruct Hc as [c Hc].
    apply (clean_and_categorize_ok_iff facility_categories 15) in Hf.
    destruct Hf as [f Hf].
    apply (clean_establishment_year_ok_iff py clk) in Hy. destruct Hy as [y Hy].
    apply clean_image_urls_ok_iff in Hi. destruct Hi as [i Hi].
    apply assess_data_quality_ok_iff in Hq. destruct Hq as [q Hq].
    unfold clean_college_data_try, clean_and_categorize_courses,
      clean_and_categorize_facilities, format.
    rewrite Hs, Hp, He, Hw, Hc, Hf, Hy, Hi, Hq. cbn [bind to_str_in].
    eexists. reflexivity.
Qed.

(* ================================================================== *)
(** * Further properties of the cleaners *)
(* ================================================================== *)

(** ** Facts about the matcher *)

Lemma chars_append (s t : string) : chars (s ++ t) = (chars s ++ chars t)%list.
Proof.
  unfold chars. induction s as [| c s IH]; simpl; [reflexivity | now rewrite IH].
Qed.

(** What a successful greedy repetition took: a run of characters of the
    class, within the bounds, after which the continuation succeeded. *)
Lemma rep_inv {R : Type} (f : ascii -> bool) (lo : nat) (hi : option nat)
      (a : list ascii) :
  forall (n : nat) (b : list ascii) (g : option (list ascii))
         (k : pos -> option R) (x : R),
    rep f lo hi n b a g k = Some x ->
    exists pre rest,
      a = (pre ++ rest)%list /\
      Forall (fun c => f c = true) pre /\
      lo <= n + length pre /\
      match hi with
      | Some h => n + length pre <= Nat.max n h
      | None => True
      end /\
      k (mkpos (rev pre ++ b) rest g) = Some x.
Proof.
  assert (Hstop : forall n b rest g (k : pos -> option R) x,
             (if Nat.leb lo n then k (mkpos b rest g) else None) = Some x ->
             exists pre rest',
               rest = (pre ++ rest')%list /\
               Forall (fun c => f c = true) pre /\
               lo <= n + length pre /\
               match hi with
               | Some h => n + length pre <= Nat.max n h
               | None => True
               end /\
               k (mkpos (rev pre ++ b) rest' g) = Some x).
  { intros n b rest g k x H. destruct (Nat.leb lo n) eqn:Hlo; [| discriminate H].
    apply Nat.leb_le in Hlo. exists [], rest. cbn [app rev length].
    repeat split; try constructor; try lia; [| exact H].
    destruct hi; [lia | exact I]. }
  induction a as [| c a IH]; intros n b g k x; cbn [rep].
  - apply Hstop.
  - destruct (f c && below n hi) eqn:Htake; [| apply Hstop].
    apply andb_prop in Htake. destruct Htake as [Hc Hbelow].
    destruct (rep f lo hi (S n) (c :: b) a g k) as [y |] eqn:Hrec; [| apply Hstop].
    intros H. injection H as ->.
    apply IH in Hrec. destruct Hrec as (pre & rest & -> & Hpre & Hlo & Hhi & Hk).
    exists (c :: pre), rest. cbn [app rev length].
    rewrite <- app_assoc. cbn [app].
    repeat split; try assumption; try (constructor; assumption); try lia.
    destruct hi as [h |]; [| exact I].
    unfold below in Hbelow. apply Nat.ltb_lt in Hbelow. lia.
Qed.

(** A repetition whose lower bound is met succeeds whenever its
    continuation always does. *)
Lemma rep_succeeds {R : Type} (f : ascii -> bool) (lo : nat) (hi : option nat)
      (a : list ascii) :
  forall (n : nat) (b : list ascii) (g : option (list ascii)) (k : pos -> option R),
    lo <= n ->
    (forall p, exists y, k p = Some y) ->
    exists x, rep f lo hi n b a g k = Some x.
Proof.
  induction a as [| c a IH]; intros n b g k Hlo Hk; cbn [rep];
    apply Nat.leb_le in Hlo as Hlo'; rewrite Hlo'.
  - apply Hk.
  - destruct (f c && below n hi); [| apply Hk].
    destruct (IH (S n) (c :: b) g k) as [x ->]; [lia | exact Hk |].
    now exists x.
Qed.

(** Where a character of the class stands, [c+] matches at least it. *)
Lemma match_at_plus (f : ascii -> bool) (b : list ascii) (c : ascii) (t : list ascii) :
  f c = true -> exists n g, match_at (plus f) b (c :: t) = Some (S n, g).
Proof.
  intros Hc. unfold match_at, plus. cbn [rmatch before after grp1 rep below].
  rewrite Hc. cbn [andb].
  set (k := fun p' : pos => Some (length (before p') - length b, grp1 p')).
  destruct (rep_succeeds f 1 None t 1 (c :: b) None k) as [[m g] Hrep];
    [lia | intros p; eexists; reflexivity |].
  rewrite Hrep. apply rep_inv in Hrep.
  destruct Hrep as (pre & rest & _ & _ & _ & _ & Hk).
  unfold k in Hk. cbn [before grp1] in Hk. injection Hk as <- <-.
  exists (length pre), None. f_equal. f_equal.
  replace (rev pre ++ c :: b)%list with ((rev pre ++ [c]) ++ b)%list
    by now rewrite <- app_assoc.
  rewrite length_prefix_sub, length_app, length_rev. simpl. lia.
Qed.

(** The characters of a substitution's result come from the replacement
    texts and from the subject's characters at which no match began. *)
Lemma sub_from_Forall (Q : ascii -> Prop) (r : regex) (repl : string -> string) :
  (forall g, Forall Q (chars (repl g))) ->
  (forall b c t, Q c \/ exists n g, match_at r b (c :: t) = Some (S n, g)) ->
  forall (a b : list ascii) (skip : nat),
    Forall Q (chars (sub_from r repl skip b a)).
Proof.
  intros Hrepl Hq. induction a as [| c a IH]; intros b skip; cbn [sub_from];
    [constructor |].
  destruct skip as [| k]; [| apply IH].
  destruct (match_at r b (c :: a)) as [[[| n] g] |] eqn:Hm.
  - destruct (Hq b c a) as [Hc | (n & g' & Hm')]; [| congruence].
    constructor; [exact Hc | apply IH].
  - rewrite chars_append. apply Forall_app. split; [apply Hrepl | apply IH].
  - destruct (Hq b c a) as [Hc | (n & g' & Hm')]; [| congruence].
    constructor; [exact Hc | apply IH].
Qed.

(** A substitution whose replacement texts have at most one character does
    not lengthen the subject. *)
Lemma sub_from_len (r : regex) (repl : string -> string) :
  (forall g, len (repl g) <= 1) ->
  forall (a b : list ascii) (skip : nat),
    len (sub_from r repl skip b a) <= length a.
Proof.
  intros Hrepl. induction a as [| c a IH]; intros b skip; cbn [sub_from];
    [simpl; lia |].
  destruct skip as [| k].
  - destruct (match_at r b (c :: a)) as [[[| n] g] |];
      try (cbn [len String.length length]; specialize (IH (c :: b) 0);
           unfold len in IH; lia).
    rewrite len_append. specialize (Hrepl (group_text g)).
    specialize (IH (c :: b) n). cbn [length]. lia.
  - specialize (IH (c :: b) k). cbn [length]. lia.
Qed.

(** Deleting the matches of a one-character class is a filter. *)
Lemma sub_chr_filter (f : ascii -> bool) (s : string) :
  sub (Chr f) (fun _ => EmptyString) s = str (filter (fun c => negb (f c)) (chars s)).
Proof.
  unfold sub. generalize (@nil ascii) as b.
  induction (chars s) as [| c a IH]; intros b; cbn [sub_from filter]; [reflexivity |].
  rewrite match_at_chr. destruct (f c); cbn [negb append].
  - apply IH.
  - cbn [str string_of_list_ascii]. f_equal. apply IH.
Qed.

Lemma len_chars (s : string) : length (chars s) = len s.
Proof. rewrite <- (str_chars s) at 2. now rewrite len_str. Qed.

Lemma lstrip_chars_length (l : list ascii) : length (lstrip_chars l) <= length l.
Proof.
  induction l as [| c l IH]; simpl; [lia |].
  destruct (is_space c); simpl; lia.
Qed.

Lemma strip_len (s : string) : len (strip s) <= len s.
Proof.
  unfold strip. rewrite len_str, length_rev.
  pose proof (lstrip_chars_length (rev (lstrip_chars (chars s)))) as H1.
  pose proof (lstrip_chars_length (chars s)) as H2.
  rewrite length_rev in H1. rewrite len_chars in H2. lia.
Qed.

(** ** [clean_text] *)

(** A character [clean_text] can leave in its result. *)
Definition clean_char (c : ascii) : bool :=
  is_word c || one_of ".,!?()-" c || Ascii.eqb c " ".

Definition space_is_blank (c : ascii) : Prop := is_space c = true -> c = " "%char.

Lemma sub_spaces_blank (s : string) :
  Forall space_is_blank (chars (sub re_spaces (fun _ => " ") s)).
Proof.
  unfold sub, re_spaces. apply sub_from_Forall.
  - intros g. constructor; [intros _; reflexivity | constructor].
  - intros b c t. destruct (is_space c) eqn:Hc.
    + right. now apply match_at_plus.
    + left. unfold space_is_blank. congruence.
Qed.

Lemma clean_char_of_kept (c : ascii) :
  kept_char c = true -> space_is_blank c -> clean_char c = true.
Proof.
  unfold kept_char, clean_char, space_is_blank. intros Hk Hs.
  destruct (is_word c); [reflexivity |].
  destruct (one_of ".,!?()-" c); [reflexivity |].
  destruct (is_space c); [| discriminate Hk].
  now rewrite Hs.
Qed.

(** [s.isascii()]: the 7-bit texts, on which the character tables are
    CPython's. *)
Definition isascii (s : string) : bool :=
  forallb (fun c => (code c <? 128)%N) (chars s).

Lemma clean_char_7bit (c : ascii) : clean_char c = true -> (code c <? 128)%N = true.
Proof. each_ascii c; intros H; try discriminate H; reflexivity. Qed.

Lemma clean_text_clean_chars (v : pyval) :
  Forall (fun c => clean_char c = true) (chars (clean_text v)) /\
  no_lead_space (chars (clean_text v)) /\
  no_lead_space (rev (chars (clean_text v))).
Proof.
  unfold clean_text.
  destruct v as [| | | s | |]; try (repeat split; constructor).
  destruct (String.eqb s ""); [repeat split; constructor |].
  set (t := sub re_special (fun _ => "") (sub re_spaces (fun _ => " ") s)).
  assert (Ht : Forall (fun c => clean_char c = true) (chars t)).
  { unfold t, re_special. rewrite sub_chr_filter, chars_str.
    pose proof (sub_spaces_blank s) as Hb.
    induction (chars (sub re_spaces (fun _ => " ") s)) as [| c l IH];
      cbn [filter]; [constructor |].
    inversion Hb as [| ? ? Hc Hl]; subst. rewrite negb_involutive.
    destruct (kept_char c) eqn:Hk; [| now apply IH].
    constructor; [now apply clean_char_of_kept | now apply IH]. }
  rewrite replace_entities_no_amp by apply sub_special_no_amp.
  unfold strip. rewrite chars_str, rev_involutive.
  split; [| split].
  - apply Forall_rev, lstrip_chars_Forall, Forall_rev, lstrip_chars_Forall, Ht.
  - apply rstrip_no_lead, lstrip_chars_no_lead.
  - apply lstrip_chars_no_lead.
Qed.

(** X1. Of a 7-bit text [clean_text] returns a 7-bit text made only of
    letters, digits, the underscore, the punctuation [.,!?()-] and the
    space character (no tab or line break survives), with no white space
    at either end. *)
Theorem clean_text_alphabet :
  forall s : string,
    isascii s = true ->
    Forall (fun c => clean_char c = true) (chars (clean_text (PStr s))) /\
    no_lead_space (chars (clean_text (PStr s))) /\
    no_lead_space (rev (chars (clean_text (PStr s)))) /\
    isascii (clean_text (PStr s)) = true.
Proof.
  intros s _.
  destruct (clean_text_clean_chars (PStr s)) as (Hc & Hl & Hr).
  repeat split; try assumption.
  unfold isascii. apply forallb_forall. intros c Hin.
  apply clean_char_7bit. rewrite Forall_forall in Hc. now apply Hc.
Qed.

Lemma clean_text_alphabet_witness :
  isascii "  Tom &amp; Jerry (1940) " = true /\
  clean_text (PStr "  Tom &amp; Jerry (1940) ") = "Tom amp Jerry (1940)" /\
  Forall (fun c => clean_char c = true)
         (chars (clean_text (PStr "  Tom &amp; Jerry (1940) "))) /\
  no_lead_space (chars (clean_text (PStr "  Tom &amp; Jerry (1940) "))) /\
  no_lead_space (rev (chars (clean_text (PStr "  Tom &amp; Jerry (1940) ")))) /\
  isascii (clean_text (PStr "  Tom &amp; Jerry (1940) ")) = true.
Proof.
  split; [reflexivity |]. split; [vm_compute; reflexivity |].
  apply clean_text_alphabet. reflexivity.
Defined.

Lemma clean_text_len_str (s : string) : len (clean_text (PStr s)) <= len s.
Proof.
  unfold clean_text. destruct (String.eqb s ""); [simpl; lia |].
  rewrite replace_entities_no_amp by apply sub_special_no_amp.
  eapply Nat.le_trans; [apply strip_len |].
  unfold sub at 1.
  eapply Nat.le_trans; [apply sub_from_len; intros g; simpl; lia |].
  rewrite len_chars. unfold sub.
  eapply Nat.le_trans; [apply sub_from_len; intros g; simpl; lia |].
  now rewrite len_chars.
Qed.

(** X2. [clean_text] never lengthens a text, and a value that is not a
    string is cleaned to the empty string. *)
Theorem clean_text_shrinks :
  forall v : pyval,
    match v with
    | PStr s => len (clean_text v) <= len s
    | _ => clean_text v = ""
    end.
Proof.
  intros v. destruct v; try reflexivity. apply clean_text_len_str.
Qed.

(** ** Phone numbers *)

(** The two shapes [normalize_phone_number] returns: [+91-ddddd-ddddd], or
    six to eleven digits passed through. *)
Definition is_formatted_phone (s : string) : bool :=
  match chars s with
  | [p; n9; n1; h1; d1; d2; d3; d4; d5; h2; d6; d7; d8; d9; d10] =>
      Ascii.eqb p "+" && Ascii.eqb n9 "9" && Ascii.eqb n1 "1"
      && Ascii.eqb h1 "-" && Ascii.eqb h2 "-"
      && forallb is_digit [d1; d2; d3; d4; d5; d6; d7; d8; d9; d10]
  | _ => false
  end.



(** The part of [normalize_phone_number] after the non-digits are removed. *)
Definition finish_phone (cleaned : string) : option string :=
  let cleaned :=
    if startswith "+91" cleaned then drop 3 cleaned
    else if startswith "91" cleaned && Nat.eqb (len cleaned) 12 then drop 2 cleaned
    else if startswith "0" cleaned then drop 1 cleaned
    else cleaned in
  if Nat.eqb (len cleaned) 10 && isdigit cleaned
  then Some ("+91-" ++ take 5 cleaned ++ "-" ++ drop 5 cleaned)
  else if Nat.leb 6 (len cleaned) && Nat.leb (len cleaned) 11 && isdigit cleaned
  then Some cleaned
  else None.

Definition digit_or_plus (c : ascii) : bool := is_digit c || Ascii.eqb c "+".

Lemma normalize_phone_number_unfold (phone : string) :
  normalize_phone_number phone =
  if String.eqb phone "" then None
  else finish_phone (str (filter digit_or_plus (chars phone))).
Proof.
  unfold normalize_phone_number, finish_phone, re_not_digit_plus.
  destruct (String.eqb phone ""); [reflexivity |].
  rewrite sub_chr_filter.
  replace (filter (fun c => negb (negb (is_digit c || Ascii.eqb c "+"))) (chars phone))
    with (filter digit_or_plus (chars phone)); [reflexivity |].
  apply filter_ext. intros c. unfold digit_or_plus. now rewrite negb_involutive.
Qed.


Lemma Some_inj {A : Type} (a b : A) : Some a = Some b -> a = b.
Proof. intros H. now injection H. Qed.



Lemma filter_all {A : Type} (f : A -> bool) (l : list A) :
  forallb f l = true -> filter f l = l.
Proof.
  induction l as [| x l IH]; cbn [forallb filter]; [reflexivity |].
  intros H. apply andb_prop in H. destruct H as [-> Hl]. now rewrite IH.
Qed.

Lemma digits_kept (cs : list ascii) :
  forallb is_digit cs = true -> forallb digit_or_plus cs = true.
Proof.
  intros H. rewrite forallb_forall in *. intros c Hc.
  unfold digit_or_plus. now rewrite (H c Hc).
Qed.

Lemma startswith_app (pre d : string) : startswith pre (pre ++ d) = true.
Proof.
  unfold startswith. induction pre as [| c pre IH]; cbn [append String.prefix].
  - now destruct d.
  - destruct (ascii_dec c c) as [_ | Hne]; [exact IH | now elim Hne].
Qed.

Lemma drop_app (pre d : string) : drop (len pre) (pre ++ d) = d.
Proof.
  unfold drop. rewrite chars_append, <- (len_chars pre).
  rewrite skipn_app, skipn_all, Nat.sub_diag. cbn [app skipn]. apply str_chars.
Qed.

(** A prefix of digits and [+] in front of digits is left as it is when
    the other characters are removed. *)
Lemma cleaned_prefixed (pre d : string) :
  forallb digit_or_plus (chars pre) = true ->
  forallb is_digit (chars d) = true ->
  str (filter digit_or_plus (chars (pre ++ d))) = pre ++ d.
Proof.
  intros Hpre Hd. rewrite filter_all; [apply str_chars |].
  rewrite chars_append, forallb_app, Hpre. now apply digits_kept.
Qed.

(** X4. A ten-digit number normalises to the same [+91-ddddd-ddddd] text
    whether it is written with the prefix [+91], with the prefix [91] or
    with a leading [0]; written bare it does so unless its first digit is
    [0] (that digit is then taken for the trunk prefix). *)
Theorem ten_digit_spellings_agree :
  forall d : string,
    len d = 10 -> isdigit d = true ->
    normalize_phone_number ("+91" ++ d) = Some ("+91-" ++ take 5 d ++ "-" ++ drop 5 d) /\
    normalize_phone_number ("91" ++ d) = Some ("+91-" ++ take 5 d ++ "-" ++ drop 5 d) /\
    normalize_phone_number ("0" ++ d) = Some ("+91-" ++ take 5 d ++ "-" ++ drop 5 d) /\
    (startswith "0" d = false ->
     normalize_phone_number d = Some ("+91-" ++ take 5 d ++ "-" ++ drop 5 d)).
Proof.
  intros d Hlen Hdig.
  assert (Hdigits : forallb is_digit (chars d) = true).
  { unfold isdigit in Hdig. now apply andb_prop in Hdig. }
  assert (Hdone : forall c, c = d ->
             (if Nat.eqb (len c) 10 && isdigit c
              then Some ("+91-" ++ take 5 c ++ "-" ++ drop 5 c)
              else if Nat.leb 6 (len c) && Nat.leb (len c) 11 && isdigit c
                   then Some c else None) =
             Some ("+91-" ++ take 5 d ++ "-" ++ drop 5 d)).
  { intros c ->. now rewrite Hlen, Hdig. }
  repeat apply conj.
  - rewrite normalize_phone_number_unfold.
    rewrite (cleaned_prefixed "+91" d) by (reflexivity || assumption).
    change (String.eqb ("+91" ++ d) "") with false. cbv iota.
    unfold finish_phone. rewrite (startswith_app "+91" d).
    apply Hdone. apply (drop_app "+91" d).
  - rewrite normalize_phone_number_unfold.
    rewrite (cleaned_prefixed "91" d) by (reflexivity || assumption).
    change (String.eqb ("91" ++ d) "") with false. cbv iota.
    unfold finish_phone.
    change (startswith "+91" ("91" ++ d)) with false. cbv iota.
    rewrite (startswith_app "91" d), len_append, Hlen.
    apply Hdone. apply (drop_app "91" d).
  - rewrite normalize_phone_number_unfold.
    rewrite (cleaned_prefixed "0" d) by (reflexivity || assumption).
    change (String.eqb ("0" ++ d) "") with false. cbv iota.
    unfold finish_phone.
    change (startswith "+91" ("0" ++ d)) with false.
    change (startswith "91" ("0" ++ d)) with false. cbv iota.
    rewrite (startswith_app "0" d).
    apply Hdone. apply (drop_app "0" d).
  - intros Hzero. rewrite normalize_phone_number_unfold.
    rewrite filter_all by now apply digits_kept.
    rewrite str_chars.
    destruct d as [| c d']; [discriminate Hlen |].
    change (String.eqb (String c d') "") with false. cbv iota.
    unfold finish_phone. rewrite Hzero, Hlen.
    assert (Hplus : startswith "+91" (String c d') = false).
    { unfold startswith. cbn [String.prefix].
      destruct (ascii_dec "+" c) as [<- | _]; [discriminate Hdigits | reflexivity]. }
    rewrite Hplus, andb_false_r. now apply Hdone.
Qed.

(** Ten digits: every spelling of [9876543210] gives [+91-98765-43210]. *)
Lemma ten_digit_spellings_agree_witness :
  len "9876543210" = 10 /\ isdigit "9876543210" = true /\
  normalize_phone_number "+919876543210" = Some "+91-98765-43210" /\
  normalize_phone_number "919876543210" = Some "+91-98765-43210" /\
  normalize_phone_number "09876543210" = Some "+91-98765-43210" /\
  (startswith "0" "9876543210" = false ->
   normalize_phone_number "9876543210" = Some "+91-98765-43210").
Proof.
  split; [reflexivity |]. split; [reflexivity |].
  apply (ten_digit_spellings_agree "9876543210"); reflexivity.
Defined.

Lemma formatted_phone_inv (s : string) :
  is_formatted_phone s = true ->
  exists d, len d = 10 /\ isdigit d = true /\
            s = "+91-" ++ take 5 d ++ "-" ++ drop 5 d.
Proof.
  intros H. unfold is_formatted_phone in H.
  rewrite <- (str_chars s).
  destruct (chars s) as [| p [| n9 [| n1 [| h1 [| d1 [| d2 [| d3 [| d4 [| d5
    [| h2 [| d6 [| d7 [| d8 [| d9 [| d10 [| ? ?]]]]]]]]]]]]]]]];
    try discriminate H.
  apply andb_prop in H. destruct H as [H Hdigits].
  repeat (apply andb_prop in H; destruct H as [H ?]).
  repeat match goal with
         | E : Ascii.eqb _ _ = true |- _ => apply Ascii.eqb_eq in E; subst
         end.
  exists (str [d1; d2; d3; d4; d5; d6; d7; d8; d9; d10]).
  split; [reflexivity |]. split; [| reflexivity].
  unfold isdigit. now rewrite chars_str, Hdigits.
Qed.

Lemma forallb_firstn {A : Type} (f : A -> bool) (n : nat) (l : list A) :
  forallb f l = true -> forallb f (firstn n l) = true.
Proof.
  intros H. rewrite <- (firstn_skipn n l), forallb_app in H.
  now apply andb_prop in H.
Qed.

Lemma forallb_skipn {A : Type} (f : A -> bool) (n : nat) (l : list A) :
  forallb f l = true -> forallb f (skipn n l) = true.
Proof.
  intros H. rewrite <- (firstn_skipn n l), forallb_app in H.
  now apply andb_prop in H.
Qed.

(** X5. A number in the form [+91-ddddd-ddddd] normalises to itself. *)
Theorem formatted_phone_fixed :
  forall s : string,
    is_formatted_phone s = true -> normalize_phone_number s = Some s.
Proof.
  intros s H. apply formatted_phone_inv in H.
  destruct H as (d & Hlen & Hdig & ->).
  assert (Hdigits : forallb is_digit (chars d) = true).
  { unfold isdigit in Hdig. now apply andb_prop in Hdig. }
  rewrite normalize_phone_number_unfold.
  change (String.eqb ("+91-" ++ take 5 d ++ "-" ++ drop 5 d) "") with false.
  cbv iota.
  assert (Hclean : str (filter digit_or_plus
                          (chars ("+91-" ++ take 5 d ++ "-" ++ drop 5 d))) =
                   "+91" ++ d).
  { rewrite !chars_append, !filter_app. unfold take, drop. rewrite !chars_str.
    rewrite (filter_all _ (firstn 5 (chars d)))
      by now apply digits_kept, forallb_firstn.
    rewrite (filter_all _ (skipn 5 (chars d)))
      by now apply digits_kept, forallb_skipn.
    change (filter digit_or_plus (chars "+91-")) with (chars "+91").
    change (filter digit_or_plus (chars "-")) with (@nil ascii).
    cbn [app]. rewrite firstn_skipn. fold (chars ("+91")).
    rewrite <- chars_append. apply str_chars. }
  rewrite Hclean. unfold finish_phone. rewrite (startswith_app "+91" d).
  change (drop 3 ("+91" ++ d)) with (drop (len "+91") ("+91" ++ d)).
  rewrite (drop_app "+91" d), Hlen, Hdig. reflexivity.
Qed.

Lemma formatted_phone_fixed_witness :
  is_formatted_phone "+91-98765-43210" = true /\
  normalize_phone_number "+91-98765-43210" = Some "+91-98765-43210".
Proof.
  split; [reflexivity |]. apply formatted_phone_fixed. reflexivity.
Defined.

(** ** What the list cleaners keep *)



(** X7. Every entry of the cleaned email list passes [validate_email], is
    in lower case and carries no white space at its ends. *)
Theorem clean_email_addresses_valid :
  forall v : pyval,
    match clean_email_addresses v with
    | Ok l => Forall (fun e => validate_email e = true /\ lower e = e /\ strip e = e) l
    | Raise _ => True
    end.
Proof.
  intros v. destruct (clean_email_addresses v) as [l | e] eqn:Hc; [| exact I].
  assert (H : Forall email_clean l).
  { unfold clean_email_addresses in Hc. destruct (negb (truthy v)).
    - apply Ok_inj in Hc. subst. constructor.
    - bind_inv Hc. apply Ok_inj in Hc. subst.
      apply Forall_firstn_keep, email_step_collects_clean. constructor. }
  eapply Forall_impl; [| exact H].
  intros e' [Hfix Hvalid]. split; [exact Hvalid |]. split.
  - rewrite <- Hfix. apply lower_idem.
  - rewrite <- Hfix. now rewrite strip_lower, strip_idem.
Qed.

(** ** Email addresses *)

Definition email_local_char (c : ascii) : bool :=
  is_alpha c || is_digit c || one_of "._%+-" c.
Definition email_domain_char (c : ascii) : bool :=
  is_alpha c || is_digit c || one_of ".-" c.

(** X8. An address [validate_email] accepts reads
    [local @ domain . tld]: a non-empty local part of letters, digits and
    [._%+-], a non-empty domain of letters, digits and [.-], a final label
    of at least two letters, and nothing after it except, possibly, one
    line feed. *)
Theorem validate_email_shape :
  forall e : string,
    validate_email e = true ->
    exists local domain tld tail,
      chars e = (local ++ "@"%char :: domain ++ "."%char :: tld ++ tail)%list /\
      local <> [] /\ Forall (fun c => email_local_char c = true) local /\
      domain <> [] /\ Forall (fun c => email_domain_char c = true) domain /\
      2 <= length tld /\ Forall (fun c => is_alpha c = true) tld /\
      (tail = [] \/ tail = ["010"%char]).
Proof.
  intros e. unfold validate_email.
  destruct (String.eqb e "" || negb (contains "@" e)); [discriminate |].
  unfold matches, match_at, re_email.
  cbn [seqs rmatch before after grp1 plus ch].
  match goal with
  | |- context [rep ?f ?lo ?hi ?n ?b ?a ?g ?k] =>
      destruct (rep f lo hi n b a g k) as [x |] eqn:H1; [| discriminate]
  end.
  intros _. apply rep_inv in H1.
  destruct H1 as (local & rest1 & Hsplit1 & Hlocal & Hlo1 & _ & H2).
  cbn [after before grp1] in H2.
  destruct rest1 as [| c1 rest1]; [discriminate H2 |].
  destruct (Ascii.eqb_spec "@" c1) as [<- | _]; [| discriminate H2].
  apply rep_inv in H2.
  destruct H2 as (domain & rest2 & Hsplit2 & Hdomain & Hlo2 & _ & H3).
  cbn [after before grp1] in H3.
  destruct rest2 as [| c2 rest2]; [discriminate H3 |].
  destruct (Ascii.eqb_spec "." c2) as [<- | _]; [| discriminate H3].
  apply rep_inv in H3.
  destruct H3 as (tld & tail & Hsplit3 & Htld & Hlo3 & _ & H4).
  cbn [after before grp1] in H4.
  exists local, domain, tld, tail.
  rewrite Hsplit1, Hsplit2, Hsplit3.
  repeat apply conj; try assumption; try reflexivity.
  - intros ->. simpl in Hlo1. lia.
  - intros ->. simpl in Hlo2. lia.
  - destruct tail as [| c [| ? ?]]; [now left | | discriminate H4].
    destruct (Ascii.eqb_spec c "010") as [-> | _]; [now right | discriminate H4].
Qed.

Lemma validate_email_shape_witness :
  validate_email "info@rvce.edu.in" = true /\
  exists local domain tld tail,
    chars "info@rvce.edu.in" =
      (local ++ "@"%char :: domain ++ "."%char :: tld ++ tail)%list /\
    local <> [] /\ Forall (fun c => email_local_char c = true) local /\
    domain <> [] /\ Forall (fun c => email_domain_char c = true) domain /\
    2 <= length tld /\ Forall (fun c => is_alpha c = true) tld /\
    (tail = [] \/ tail = ["010"%char]).
Proof.
  split; [reflexivity |]. apply validate_email_shape. reflexivity.
Defined.

(** ** Images, website, year *)

(** X9. Every entry of the cleaned image list starts with [http://] or
    [https://], has one of the extensions [.jpg], [.jpeg], [.png], [.webp]
    somewhere in its lower-cased text, and carries no white space at its
    ends. *)
Theorem clean_image_urls_valid :
  forall v : pyval,
    match clean_image_urls v with
    | Ok l => Forall (fun u => image_url_ok u = true /\ strip u = u) l
    | Raise _ => True
    end.
Proof.
  intros v. unfold clean_image_urls.
  destruct (negb (truthy v)); [constructor |].
  destruct (iter v) as [xs | e]; cbn [bind]; [| exact I].
  apply Forall_firstn_keep.
  eapply Forall_impl; [| apply image_step_collects_clean; constructor].
  intros u [Hfix Hok]. now split.
Qed.

Definition website_shape (w : string) : Prop :=
  w = "" \/ startswith "http://" w = true \/ startswith "https://" w = true.

Lemma clean_website_url_ok_shape (py : interp) (v : pyval) (w : string) :
  clean_website_url py v = Ok w -> website_shape w.
Proof.
  unfold clean_website_url, website_shape.
  destruct (negb (truthy v)); [intros H; apply Ok_inj in H; now left |].
  destruct v as [| | | s | |]; try discriminate.
  set (website := strip s).
  destruct (negb (String.eqb website "")
            && negb (startswith "http://" website || startswith "https://" website))
    eqn:Hadd.
  - destruct (urlparse_netloc py ("https://" ++ website)) as [netloc | e];
      [| intros H; apply Ok_inj in H; now left].
    destruct (negb (String.eqb netloc ""));
      intros H; apply Ok_inj in H; subst w; [| now left].
    right. right. apply (startswith_app "https://" website).
  - destruct (urlparse_netloc py website) as [netloc | e];
      [| intros H; apply Ok_inj in H; now left].
    destruct (negb (String.eqb netloc ""));
      intros H; apply Ok_inj in H; subst w; [| now left].
    apply andb_false_iff in Hadd. destruct Hadd as [Hempty | Hscheme].
    + left. apply negb_false_iff in Hempty. now apply String.eqb_eq in Hempty.
    + right. apply negb_false_iff in Hscheme. now apply orb_prop in Hscheme.
Qed.

(** X10. The cleaned website is empty or starts with [http://] or
    [https://]; the cleaner raises only for a value that is truthy and not
    a string. *)
Theorem clean_website_url_shape :
  forall (py : interp) (v : pyval),
    match clean_website_url py v with
    | Ok w => w = "" \/ startswith "http://" w = true \/ startswith "https://" w = true
    | Raise _ => truthy v = true /\ forall s, v <> PStr s
    end.
Proof.
  intros py v. destruct (clean_website_url py v) as [w | e] eqn:Hw.
  - exact (clean_website_url_ok_shape py v w Hw).
  - unfold clean_website_url in Hw.
    destruct (truthy v); cbn [negb] in Hw; [| discriminate Hw].
    split; [reflexivity |]. intros s ->.
    destruct (urlparse_netloc _ _) as [netloc | e'] in Hw; [| discriminate Hw].
    destruct (negb (String.eqb netloc "")) in Hw; discriminate Hw.
Qed.

Definition year_shape (clk : clock) (y : string) : Prop :=
  y = "" \/
  (is_year_string y = true /\ (1800 <= int_of_digits y <= now_year clk)%Z).

Lemma clean_establishment_year_shape (py : interp) (clk : clock) (v : pyval)
      (y : string) :
  clean_establishment_year py clk v = Ok y -> year_shape clk y.
Proof.
  unfold clean_establishment_year, year_shape.
  destruct (negb (truthy v)); [intros H; apply Ok_inj in H; now left |].
  destruct (to_str_in py v) as [text | e]; cbn [bind]; [| discriminate].
  unfold search.
  destruct (search_from re_year [] (chars text)) as [[m g] |] eqn:Hs;
    [| intros H; apply Ok_inj in H; now left].
  apply search_year_shape in Hs. pose proof (year_string_fixed m Hs) as Hm.
  destruct Hm as (_ & Hprint & _).
  destruct ((1800 <=? int_of_digits m)%Z && (int_of_digits m <=? now_year clk)%Z)
    eqn:Hrange; intros H; apply Ok_inj in H; subst y; [| now left].
  right. rewrite Hprint. split; [exact Hs |].
  apply andb_prop in Hrange. destruct Hrange as [H1 H2].
  apply Z.leb_le in H1, H2. lia.
Qed.

(** X11. The cleaned establishment year is empty or a four-character year
    text [19dd] or [20dd] whose number lies between 1800 and the current
    year (so, the pattern allowing none below, between 1900 and it).  The
    cleaner raises only the exception of [str(year)], for a truthy value
    that cannot be rendered as text; a string always can. *)
Theorem clean_establishment_year_range :
  forall (py : interp) (clk : clock) (v : pyval),
    match clean_establishment_year py clk v with
    | Ok y =>
        y = "" \/
        (is_year_string y = true /\ (1800 <= int_of_digits y <= now_year clk)%Z)
    | Raise e =>
        truthy v = true /\ to_str_in py v = Raise e /\ forall s, v <> PStr s
    end.
Proof.
  intros py clk v.
  destruct (clean_establishment_year py clk v) as [y | e] eqn:Hy.
  - exact (clean_establishment_year_shape py clk v y Hy).
  - unfold clean_establishment_year in Hy.
    destruct (truthy v); cbn [negb] in Hy; [| discriminate Hy].
    destruct (to_str_in py v) as [text | e'] eqn:Ht; cbn [bind] in Hy.
    + destruct (search re_year text) as [[m g] |]; [| discriminate Hy].
      destruct (_ && _); discriminate Hy.
    + apply (f_equal (fun r => match r with Raise x => x | Ok _ => e end)) in Hy.
      cbn in Hy. subst e'.
      split; [reflexivity |]. split; [reflexivity |].
      intros s ->. discriminate Ht.
Qed.

(** ** Bounds of the text fields *)

Lemma clean_address_bound (v : pyval) : len (clean_address v) <= 200.
Proof.
  unfold clean_address. destruct (negb (truthy v)); [simpl; lia |].
  set (a := strip _).
  destruct (Nat.ltb 200 (len a)) eqn:Hlong.
  - unfold take. rewrite len_str. apply firstn_le_length.
  - apply Nat.ltb_ge in Hlong. exact Hlong.
Qed.

Lemma take_all (n : nat) (s : string) : len s <= n -> take n s = s.
Proof.
  intros H. unfold take. rewrite firstn_all2; [apply str_chars |].
  now rewrite len_chars.
Qed.

(** X12. The cleaned affiliation is never a truncated text: it is the
    whole cleaned text or empty.  It has at most 100 characters unless its
    lower-cased text contains one of the recognised affiliations. *)
Theorem clean_affiliation_len :
  forall v : pyval,
    (clean_affiliation v = clean_text v \/ clean_affiliation v = "") /\
    (len (clean_affiliation v) <= 100 \/
     exists common, In common common_affiliations /\
                    contains common (lower (clean_text v)) = true).
Proof.
  intros v. unfold clean_affiliation.
  destruct (negb (truthy v)); [split; [now right | left; simpl; lia] |].
  destruct (existsb _ common_affiliations) eqn:Hex.
  - split; [now left |]. right. apply existsb_exists in Hex. exact Hex.
  - destruct (Nat.leb (len (clean_text v)) 100) eqn:Hl;
      [| split; [now right | left; simpl; lia]].
    apply Nat.leb_le in Hl. rewrite take_all by exact Hl.
    split; [now left | now left].
Qed.

(** ** The location window *)

(** A literal matches its own characters, and nothing else. *)
Lemma rmatch_lit {R : Type} (s : string) :
  forall (p : pos) (k : pos -> option R) (x : R),
    rmatch (lit s) p k = Some x ->
    exists rest,
      after p = (chars s ++ rest)%list /\
      k (mkpos (rev (chars s) ++ before p) rest (grp1 p)) = Some x.
Proof.
  induction s as [| c s IH]; intros p k x; cbn [lit rmatch ch].
  - intros H. exists (after p). split; [reflexivity |]. now destruct p.
  - destruct (after p) as [| c' t] eqn:Hafter; [discriminate |].
    destruct (Ascii.eqb_spec c c') as [<- | _]; [| discriminate].
    intros H. apply IH in H. cbn [after before grp1] in H.
    destruct H as (rest & -> & Hk). exists rest. split; [reflexivity |].
    cbn [chars list_ascii_of_string rev]. fold (chars s).
    now rewrite <- app_assoc.
Qed.

Lemma match_at_city_window (city : string) (b a : list ascii) (n : nat)
      (g : option (list ascii)) :
  match_at (re_city_window city) b a = Some (n, g) -> n <= 100 + len city.
Proof.
  unfold match_at, re_city_window. cbn [seqs rmatch before after grp1].
  intros H. apply rep_inv in H.
  destruct H as (pre1 & rest1 & _ & _ & _ & Hhi1 & H).
  apply rmatch_lit in H. cbn [before after grp1] in H.
  destruct H as (rest2 & _ & H).
  apply rep_inv in H.
  destruct H as (pre2 & rest3 & _ & _ & _ & Hhi2 & H).
  cbn [before grp1] in H. injection H as <- _.
  rewrite !app_assoc, length_prefix_sub, !length_app, !length_rev, len_chars.
  cbn [Nat.max] in Hhi1, Hhi2. simpl in Hhi1, Hhi2. lia.
Qed.

Lemma search_city_window (city : string) (a : list ascii) :
  forall (b : list ascii) (m g : string),
    search_from (re_city_window city) b a = Some (m, g) ->
    len m <= 100 + len city.
Proof.
  assert (Hfound : forall b a' n g0 m g,
             match_at (re_city_window city) b a' = Some (n, g0) ->
             Some (str (firstn n a'), group_text g0) = Some (m, g) ->
             len m <= 100 + len city).
  { intros b a' n g0 m g Hm H. injection H as <- _.
    apply match_at_city_window in Hm. rewrite len_str.
    pose proof (firstn_le_length n a'). lia. }
  induction a as [| c a IH]; intros b m g; cbn [search_from].
  - destruct (match_at (re_city_window city) b []) as [[n g0] |] eqn:Hm;
      [now apply (Hfound _ _ _ _ _ _ Hm) | discriminate].
  - destruct (match_at (re_city_window city) b (c :: a)) as [[n g0] |] eqn:Hm;
      [now apply (Hfound _ _ _ _ _ _ Hm) | apply IH].
Qed.

Lemma city_window_len (cities : list string) (location_lower w : string) :
  Forall (fun city => len city <= 12) cities ->
  city_window cities location_lower = Some w -> len w <= 112.
Proof.
  induction cities as [| city rest IH]; intros Hlen; cbn [city_window];
    [discriminate |].
  inversion Hlen as [| ? ? Hcity Hrest]; subst.
  destruct (contains city location_lower); [| now apply IH].
  destruct (search (re_city_window city) location_lower) as [[m g] |] eqn:Hs;
    [| now apply IH].
  intros H. apply Some_inj in H. subst w.
  apply search_city_window in Hs.
  pose proof (clean_text_len_str m). lia.
Qed.

(** X13. The cleaned location has at most 112 characters (a window of at
    most 50 characters on each side of a city name of at most 12, or the
    first 100 characters of the cleaned text), and the cleaned address at
    most 200. *)
Theorem clean_location_len :
  forall v : pyval, len (clean_location v) <= 112 /\ len (clean_address v) <= 200.
Proof.
  intros v. split; [| apply clean_address_bound].
  unfold clean_location. destruct (negb (truthy v)); [simpl; lia |].
  destruct (city_window karnataka_cities (lower (clean_text v))) as [w |] eqn:Hw.
  - apply (city_window_len karnataka_cities _ _) in Hw; [exact Hw |].
    unfold karnataka_cities. repeat constructor.
  - destruct (Nat.ltb 100 (len (clean_text v))) eqn:Hlong.
    + unfold take. rewrite len_str.
      pose proof (firstn_le_length 100 (chars (clean_text v))). lia.
    + apply Nat.ltb_ge in Hlong. lia.
Qed.

(** ** Categorisation *)

Definition filed (d : list (string * list string)) : nat :=
  list_sum (map (fun kv => length (snd kv)) d).

Lemma dict_append_keys (category item : string) (d : list (string * list string)) :
  map fst (dict_append category item d) = map fst d.
Proof.
  induction d as [| [k v] d IH]; cbn [dict_append map]; [reflexivity |].
  destruct (String.eqb k category); cbn [map fst]; [reflexivity | now rewrite IH].
Qed.

Lemma filed_cons (k : string) (v : list string) (d : list (string * list string)) :
  filed ((k, v) :: d) = length v + filed d.
Proof. reflexivity. Qed.

Lemma dict_append_filed (category item : string) (d : list (string * list string)) :
  In category (map fst d) -> filed (dict_append category item d) = S (filed d).
Proof.
  induction d as [| [k v] d IH]; cbn [dict_append map fst In]; [intros [] |].
  destruct (String.eqb_spec k category) as [-> | Hne]; intros Hin.
  - rewrite !filed_cons, length_app. simpl. lia.
  - destruct Hin as [Heq | Hin]; [now elim Hne |].
    rewrite !filed_cons, IH by assumption. lia.
Qed.

Lemma map_id' {A B : Type} (l : list (A * B)) :
  map (fun kv : A * B => fst kv) l = map fst l.
Proof. reflexivity. Qed.

Lemma categorize_in_table (table : list (string * list string)) (l : string) :
  In (categorize table l) (map fst table) \/ categorize table l = "Other".
Proof.
  induction table as [| [c kws] table IH]; cbn [categorize]; [now right |].
  destruct (existsb _ kws); cbn [map fst In]; [left; now left |].
  destruct IH as [IH | IH]; [left; now right | now right].
Qed.

Lemma categorize_key (table : list (string * list string)) (l : string) :
  In (categorize table l) (map fst (empty_categories table)).
Proof.
  unfold empty_categories.
  destruct (mem "Other" (map fst table)) eqn:Hmem.
  - rewrite map_map. cbn [fst]. rewrite map_id'.
    destruct (categorize_in_table table l) as [Hk | ->]; [exact Hk |].
    now apply mem_true_iff.
  - rewrite map_app, map_map. cbn [fst map]. rewrite map_id'. apply in_or_app.
    destruct (categorize_in_table table l) as [Hk | ->];
      [now left | right; now left].
Qed.

Lemma categorize_fold_filed (table : list (string * list string)) (xs : list pyval) :
  forall st : list string * list (string * list string),
    map fst (snd st) = map fst (empty_categories table) ->
    filed (snd st) = length (fst st) ->
    filed (snd (fold_left (categorize_step table) xs st)) =
    length (fst (fold_left (categorize_step table) xs st)).
Proof.
  induction xs as [| x xs IH]; intros st Hkeys Hsum; cbn [fold_left];
    [exact Hsum |].
  apply IH; unfold categorize_step; destruct x; try assumption;
    destruct (Nat.ltb _ 3 || Nat.ltb 100 _); try assumption; cbn [fst snd].
  - now rewrite dict_append_keys.
  - rewrite dict_append_filed, length_app, Hsum; [simpl; lia |].
    rewrite Hkeys. apply categorize_key.
Qed.

Lemma filed_filter (d : list (string * list string)) :
  filed (filter (fun kv => match snd kv with [] => false | _ => true end) d) = filed d.
Proof.
  induction d as [| [k v] d IH]; cbn [filter snd]; [reflexivity |].
  destruct v as [| x v]; rewrite ?filed_cons, IH; reflexivity.
Qed.

Lemma empty_categories_filed (table : list (string * list string)) :
  filed (empty_categories table) = 0.
Proof.
  assert (H : forall t : list (string * list string),
             filed (map (fun kv => (fst kv, @nil string)) t) = 0).
  { unfold filed. induction t as [| kv t IH]; simpl; [reflexivity | exact IH]. }
  unfold empty_categories. destruct (mem "Other" (map fst table)); [apply H |].
  unfold filed in *. rewrite map_app, list_sum_app, H. reflexivity.
Qed.

(** What the result of a categorisation satisfies. *)
Definition well_categorized (cap : nat) (c : categorized) : Prop :=
  Forall (fun kv => snd kv <> []) (categories c) /\
  filed (categories c) = total c /\
  length (items c) = Nat.min cap (total c) /\
  match unique_categories c with
  | Some n => n = length (categories c)
  | None => total c = 0
  end.

Lemma clean_and_categorize_well (table : list (string * list string))
      (cap : nat) (v : pyval) (c : categorized) :
  clean_and_categorize table cap v = Ok c -> well_categorized cap c.
Proof.
  unfold clean_and_categorize, well_categorized.
  destruct (negb (truthy v)).
  - intros H. apply Ok_inj in H. subst c. cbn.
    repeat split; [constructor | now rewrite Nat.min_0_r].
  - intros H. bind_inv H. apply Ok_inj in H. subst c.
    cbn [categories total items unique_categories].
    repeat split.
    + apply Forall_forall. intros [k ls] Hin. apply filter_In in Hin.
      destruct Hin as [_ Hne]. cbn [snd] in *. now destruct ls.
    + rewrite filed_filter. apply categorize_fold_filed; [reflexivity |].
      apply empty_categories_filed.
    + apply length_firstn.
Qed.

(** *** What is filed where *)

(** The items the loop of a categorisation accepts, in order: the cleaned
    texts, of 3 to 100 characters, of the string items. *)
Definition accepted (xs : list pyval) : list string :=
  flat_map (fun x => match x with
                     | PStr _ =>
                         let t := clean_text x in
                         if Nat.ltb (len t) 3 || Nat.ltb 100 (len t) then [] else [t]
                     | _ => []
                     end) xs.

(** What the loop goes through: nothing when the value is falsy. *)
Definition elements (v : pyval) : list pyval :=
  if truthy v then match iter v with Ok xs => xs | Raise _ => [] end else [].

(** The accepted items that the classification puts under [k]. *)
Definition members (table : list (string * list string)) (k : string)
           (acc : list string) : list string :=
  filter (fun t => String.eqb (categorize table (lower t)) k) acc.

Definition nonempty_entry (kv : string * list string) : bool :=
  match snd kv with [] => false | _ => true end.

(** The accepted items grouped by category, in the order of the table
    (['Other'] last), the categories without an item left out. *)
Definition grouped (table : list (string * list string)) (acc : list string)
  : list (string * list string) :=
  filter nonempty_entry
         (map (fun k => (k, members table k acc)) (map fst (empty_categories table))).

Lemma empty_categories_shape (table : list (string * list string)) :
  empty_categories table =
  map (fun k => (k, @nil string)) (map fst (empty_categories table)).
Proof.
  assert (H : forall t : list (string * list string),
             map (fun kv => (fst kv, @nil string)) t =
             map (fun k => (k, @nil string))
                 (map fst (map (fun kv => (fst kv, @nil string)) t))).
  { intros t. rewrite !map_map. reflexivity. }
  unfold empty_categories. destruct (mem "Other" (map fst table)); [apply H |].
  rewrite !map_app. cbn [map fst]. now rewrite <- H.
Qed.

(** Appending under a key of a dict built over distinct keys changes the
    entry of that key alone. *)
Lemma dict_append_map (c t : string) (f : string -> list string) (keys : list string) :
  NoDup keys ->
  dict_append c t (map (fun k => (k, f k)) keys) =
  map (fun k => (k, if String.eqb k c then (f k ++ [t])%list else f k)) keys.
Proof.
  induction keys as [| k keys IH]; intros Hnd; cbn [map dict_append]; [reflexivity |].
  inversion Hnd as [| ? ? Hnotin Hnd']; subst.
  destruct (String.eqb_spec k c) as [-> | Hne].
  - f_equal. apply map_ext_in. intros k' Hin.
    destruct (String.eqb_spec k' c) as [-> | _]; [contradiction | reflexivity].
  - f_equal. now apply IH.
Qed.

Lemma members_app (table : list (string * list string)) (k : string)
      (acc : list string) (t : string) :
  members table k (acc ++ [t]) =
  if String.eqb k (categorize table (lower t))
  then (members table k acc ++ [t])%list else members table k acc.
Proof.
  unfold members. rewrite filter_app. cbn [filter].
  rewrite (String.eqb_sym k). destruct (String.eqb _ k); [reflexivity |].
  apply app_nil_r.
Qed.

(** The loop files every accepted item, and nothing else, under the
    category the classification gives it. *)
Lemma categorize_fold_grouped (table : list (string * list string)) (xs : list pyval) :
  NoDup (map fst (empty_categories table)) ->
  forall acc : list string,
    fold_left (categorize_step table) xs
              (acc, map (fun k => (k, members table k acc))
                        (map fst (empty_categories table))) =
    ((acc ++ accepted xs)%list,
     map (fun k => (k, members table k (acc ++ accepted xs)))
         (map fst (empty_categories table))).
Proof.
  intros Hnd. induction xs as [| x xs IH]; intros acc; cbn [fold_left accepted flat_map].
  - now rewrite app_nil_r.
  - fold (accepted xs).
    assert (Hskip :
      fold_left (categorize_step table) xs
                (acc, map (fun k => (k, members table k acc))
                          (map fst (empty_categories table))) =
      ((acc ++ [] ++ accepted xs)%list,
       map (fun k => (k, members table k (acc ++ [] ++ accepted xs)))
           (map fst (empty_categories table)))) by apply IH.
    unfold categorize_step at 2. destruct x as [| | | s | |]; try exact Hskip.
    cbv zeta. cbn [fst snd].
    destruct (Nat.ltb (len (clean_text (PStr s))) 3
              || Nat.ltb 100 (len (clean_text (PStr s)))); [exact Hskip |].
    set (t := clean_text (PStr s)).
    rewrite (dict_append_map _ t (fun k => members table k acc)) by exact Hnd.
    rewrite (map_ext _ (fun k => (k, members table k (acc ++ [t]))))
      by (intros k; now rewrite members_app).
    rewrite IH. cbn [app]. now rewrite <- !app_assoc.
Qed.

Lemma grouped_nil (table : list (string * list string)) : grouped table [] = [].
Proof.
  unfold grouped. induction (map fst (empty_categories table)) as [| k ks IH];
    [reflexivity | exact IH].
Qed.

(** What the result of a categorisation is: its items are the first [cap]
    accepted items, its total their number, its categories the accepted
    items grouped by the classification. *)
Definition files_accepted (table : list (string * list string)) (cap : nat)
           (v : pyval) (c : categorized) : Prop :=
  let acc := accepted (elements v) in
  items c = firstn cap acc /\
  total c = length acc /\
  categories c = grouped table acc /\
  (forall t, In t acc ->
     exists l, In (categorize table (lower t), l) (categories c) /\ In t l) /\
  (forall k l t, In (k, l) (categories c) -> In t l ->
     In t acc /\ k = categorize table (lower t)) /\
  NoDup (map fst (categories c)) /\
  match unique_categories c with
  | Some n => n = length (categories c)
  | None => total c = 0
  end.

(** Leaving entries out of a dict keeps its keys distinct. *)
Lemma kept_keys_distinct (keep : string * list string -> bool)
      (d : list (string * list string)) :
  NoDup (map fst d) -> NoDup (map fst (filter keep d)).
Proof.
  induction d as [| [k v] d IH]; cbn [map filter fst]; intros Hnd; [constructor |].
  apply NoDup_cons_iff in Hnd. destruct Hnd as [Hfresh Hnd].
  destruct (keep (k, v)); cbn [map fst]; [| now apply IH].
  apply NoDup_cons_iff. split; [| now apply IH].
  intros Hin. apply Hfresh.
  apply (incl_map fst (incl_filter keep d)). exact Hin.
Qed.

Lemma grouped_files (table : list (string * list string)) (acc : list string) :
  NoDup (map fst (empty_categories table)) ->
  (forall t, In t acc ->
     exists l, In (categorize table (lower t), l) (grouped table acc) /\ In t l) /\
  (forall k l t, In (k, l) (grouped table acc) -> In t l ->
     In t acc /\ k = categorize table (lower t)) /\
  NoDup (map fst (grouped table acc)).
Proof.
  intros Hnd. unfold grouped. split; [| split].
  - intros t Hin. exists (members table (categorize table (lower t)) acc).
    assert (Ht : In t (members table (categorize table (lower t)) acc)).
    { apply filter_In. split; [exact Hin | apply String.eqb_refl]. }
    split; [| exact Ht].
    apply filter_In. split.
    + apply in_map_iff. exists (categorize table (lower t)).
      split; [reflexivity | apply categorize_key].
    + unfold nonempty_entry. cbn [snd].
      destruct (members table (categorize table (lower t)) acc); [destruct Ht | reflexivity].
  - intros k l t Hin Ht. apply filter_In in Hin. destruct Hin as [Hin _].
    apply in_map_iff in Hin. destruct Hin as (k' & Heq & _).
    injection Heq as <- <-. apply filter_In in Ht. destruct Ht as [Hacc Hk].
    apply String.eqb_eq in Hk. now split.
  - apply kept_keys_distinct. rewrite map_map. cbn [fst]. now rewrite map_id.
Qed.

Lemma clean_and_categorize_files (table : list (string * list string))
      (cap : nat) (v : pyval) (c : categorized) :
  NoDup (map fst (empty_categories table)) ->
  clean_and_categorize table cap v = Ok c -> files_accepted table cap v c.
Proof.
  intros Hnd. unfold clean_and_categorize, files_accepted, elements. cbv zeta.
  destruct (truthy v); cbn [negb].
  - destruct (iter v) as [xs | e]; cbn [bind]; [| discriminate].
    assert (Hfold :
      fold_left (categorize_step table) xs ([], empty_categories table) =
      (accepted xs,
       map (fun k => (k, members table k (accepted xs)))
           (map fst (empty_categories table)))).
    { transitivity
        (fold_left (categorize_step table) xs
           ([], map (fun k => (k, members table k []))
                    (map fst (empty_categories table)))).
      - f_equal. f_equal. exact (empty_categories_shape table).
      - apply (categorize_fold_grouped table xs Hnd []). }
    intros H. apply Ok_inj in H. subst c.
    cbn [items total categories unique_categories].
    rewrite Hfold.
    cbn [fst snd]. fold nonempty_entry. fold (grouped table (accepted xs)).
    destruct (grouped_files table (accepted xs) Hnd) as (H1 & H2 & H3).
    split; [reflexivity |]. split; [reflexivity |]. split; [reflexivity |].
    split; [exact H1 |]. split; [exact H2 |]. split; [exact H3 | reflexivity].
  - intros H. apply Ok_inj in H. subst c.
    cbn [items total categories unique_categories accepted flat_map length].
    rewrite grouped_nil, firstn_nil.
    split; [reflexivity |]. split; [reflexivity |]. split; [reflexivity |].
    split; [intros t [] |]. split; [intros k l t [] |].
    split; [constructor | reflexivity].
Qed.

Lemma course_keys_distinct : NoDup (map fst (empty_categories course_categories)).
Proof.
  vm_compute. repeat (constructor; [simpl; intuition discriminate |]). constructor.
Qed.

Lemma facility_keys_distinct : NoDup (map fst (empty_categories facility_categories)).
Proof.
  vm_compute. repeat (constructor; [simpl; intuition discriminate |]). constructor.
Qed.

(** X14. In the result of the course and of the facility categorisation
    the items are the first 20 (15) accepted items, in order, the total
    counts the accepted items also beyond the cap, and the categories are
    the accepted items grouped by their classification: every accepted
    item is filed under the category the first-match rule gives it and
    under no other, every filed item is an accepted one, no category is
    listed twice or empty, and [unique_categories], when present, is the
    number of categories. *)
Theorem clean_and_categorize_partition :
  forall v : pyval,
    match clean_and_categorize_courses v with
    | Ok c =>
        files_accepted course_categories 20 v c /\
        Forall (fun kv => snd kv <> []) (categories c) /\
        filed (categories c) = total c
    | Raise _ => truthy v = true /\ iterable v = false
    end /\
    match clean_and_categorize_facilities v with
    | Ok c =>
        files_accepted facility_categories 15 v c /\
        Forall (fun kv => snd kv <> []) (categories c) /\
        filed (categories c) = total c
    | Raise _ => truthy v = true /\ iterable v = false
    end.
Proof.
  assert (H : forall table cap v,
             NoDup (map fst (empty_categories table)) ->
             match clean_and_categorize table cap v with
             | Ok c =>
                 files_accepted table cap v c /\
                 Forall (fun kv => snd kv <> []) (categories c) /\
                 filed (categories c) = total c
             | Raise _ => truthy v = true /\ iterable v = false
             end).
  { intros table cap v Hnd.
    destruct (clean_and_categorize table cap v) as [c | e] eqn:Hc.
    - split; [now apply clean_and_categorize_files |].
      destruct (clean_and_categorize_well table cap v c Hc) as (Hne & Hsum & _).
      now split.
    - destruct (truthy v) eqn:Ht, (iterable v) eqn:Hi; try (now split).
      + assert (Hok : exists r, clean_and_categorize table cap v = Ok r)
          by (apply clean_and_categorize_ok_iff; unfold loop_field_ok;
              now rewrite Hi, orb_true_r).
        destruct Hok as [r Hr]. congruence.
      + unfold clean_and_categorize in Hc. rewrite Ht in Hc. discriminate Hc.
      + unfold clean_and_categorize in Hc. rewrite Ht in Hc. discriminate Hc. }
  intros v. split.
  - apply (H course_categories 20 v course_keys_distinct).
  - apply (H facility_categories 15 v facility_keys_distinct).
Qed.

(** ** The college type *)

Definition type_step (st : nat * string) (kv : string * list string) : nat * string :=
  if Nat.ltb (fst st) (length (snd kv)) then (length (snd kv), fst kv) else st.

Lemma type_fold_max (cats : list (string * list string)) :
  forall st : nat * string,
    let r := fold_left type_step cats st in
    fst st <= fst r /\
    (forall k l, In (k, l) cats -> length l <= fst r) /\
    (r = st \/ exists l, In (snd r, l) cats /\ length l = fst r).
Proof.
  induction cats as [| [k0 l0] cats IH]; intros st; cbn [fold_left].
  - split; [lia |]. split; [intros k l [] | now left].
  - specialize (IH (type_step st (k0, l0))). cbn zeta in IH.
    destruct IH as (Hge & Hall & Hfrom).
    assert (Hstep : fst st <= fst (type_step st (k0, l0)) /\
                    length l0 <= fst (type_step st (k0, l0)) /\
                    (type_step st (k0, l0) = st \/
                     type_step st (k0, l0) = (length l0, k0))).
    { unfold type_step. cbn [fst snd].
      destruct (Nat.ltb (fst st) (length l0)) eqn:Hlt; cbn [fst].
      - apply Nat.ltb_lt in Hlt. repeat split; try lia. now right.
      - apply Nat.ltb_ge in Hlt. repeat split; try lia. now left. }
    destruct Hstep as (H1 & H2 & H3).
    split; [lia |]. split.
    + intros k l [Heq | Hin]; [injection Heq as <- <-; lia | now apply (Hall k)].
    + destruct Hfrom as [Hsame | (l & Hin & Hlen)].
      * rewrite Hsame. destruct H3 as [-> | ->]; [now left |].
        right. exists l0. cbn [fst snd]. split; [now left | reflexivity].
      * right. exists l. split; [now right | exact Hlen].
Qed.

(** The type chosen among categories of which one holds an item. *)
Lemma college_type_is_max (c : categorized) (k : string) (l : list string) :
  In (k, l) (categories c) -> l <> [] ->
  exists l', In (determine_college_type c, l') (categories c) /\
             forall k'' l'', In (k'', l'') (categories c) ->
                             length l'' <= length l'.
Proof.
  unfold determine_college_type. intros Hin Hne.
  destruct (categories c) as [| kv cats] eqn:Hc; [destruct Hin |].
  rewrite <- Hc in *.
  change (fun (st : nat * string) (kv : string * list string) =>
            if Nat.ltb (fst st) (length (snd kv))
            then (length (snd kv), fst kv) else st) with type_step.
  destruct (type_fold_max (categories c) (0, "General")) as (_ & Hall & Hfrom).
  cbn zeta in Hall, Hfrom.
  destruct Hfrom as [Hsame | (l' & Hin' & Hlen)].
  - specialize (Hall k l Hin). rewrite Hsame in Hall. cbn [fst] in Hall.
    destruct l; [now elim Hne | simpl in Hall; lia].
  - exists l'. split; [exact Hin' |]. intros k'' l'' Hin''.
    rewrite Hlen. now apply (Hall k'').
Qed.

(** X15. The college type is [General] when there is no category;
    otherwise, as soon as some category holds an item, it is the name of a
    category that holds at least as many items as every other one. *)
Theorem determine_college_type_max :
  forall c : categorized,
    (categories c = [] -> determine_college_type c = "General") /\
    (forall k l, In (k, l) (categories c) -> l <> [] ->
       exists l', In (determine_college_type c, l') (categories c) /\
                  forall k'' l'', In (k'', l'') (categories c) ->
                                  length l'' <= length l').
Proof.
  intros c. split.
  - unfold determine_college_type. now intros ->.
  - intros k l. apply college_type_is_max.
Qed.

(** ** Scores *)

Lemma calculate_completeness_range
      (name location : string) (phone email : list string)
      (courses facilities : categorized) (description : string) :
  let score := calculate_completeness name location phone email courses
                                      facilities description in
  PrimFloat.leb 0.3%float score = true /\
  PrimFloat.leb 0.1%float score = true /\
  PrimFloat.leb score 1%float = true.
Proof.
  unfold calculate_completeness, categorized_len.
  destruct (negb (String.eqb name "")), (negb (String.eqb location "")),
    phone as [| ? ?], email as [| ? ?],
    (unique_categories courses), (unique_categories facilities),
    (negb (String.eqb description ""));
    vm_compute; repeat split.
Qed.

Lemma assess_data_quality_range (data : list (string * pyval)) (q : quality) :
  assess_data_quality data = Ok q ->
  PrimFloat.leb 0%float (completeness q) = true /\
  PrimFloat.leb (completeness q) 1%float = true.
Proof.
  unfold assess_data_quality, bind. cbn [filter length].
  destruct (truthy (get_none data "name")), (truthy (get_none data "location")),
    (truthy (get_none data "courses")), (truthy (get_none data "phone")),
    (truthy (get_none data "description"));
    intros H;
    repeat match type of H with
           | context [match ?m with Ok _ => _ | Raise _ => _ end] =>
               destruct m; try discriminate H
           | context [if ?b then _ else _] => destruct b
           end;
    try discriminate H;
    apply Ok_inj in H; subst q; vm_compute; split; reflexivity.
Qed.

(** X16. Every record the cleaner returns has a completeness score between
    0.1 and 1 and a [data_quality.completeness] between 0 and 1; on the
    normal path the score is at least 0.3, the weights of [courses] and
    [facilities] being always counted.  (The cleaner returns no record only
    when rendering the name raises.) *)
Theorem completeness_score_bounds :
  forall (py : interp) (clk : clock) (raw : list (string * pyval)),
    (forall r, clean_college_data_try py clk raw = Ok r ->
               PrimFloat.leb 0.3%float (completeness_score r) = true) /\
    match clean_college_data py clk raw with
    | Ok r =>
        PrimFloat.leb 0.1%float (completeness_score r) = true /\
        PrimFloat.leb (completeness_score r) 1%float = true /\
        PrimFloat.leb 0%float (completeness (data_quality r)) = true /\
        PrimFloat.leb (completeness (data_quality r)) 1%float = true
    | Raise e => format py (get raw "name" (PStr "")) = Raise e
    end.
Proof.
  intros py clk raw.
  assert (Htry : forall r, clean_college_data_try py clk raw = Ok r ->
             PrimFloat.leb 0.3%float (completeness_score r) = true /\
             PrimFloat.leb 0.1%float (completeness_score r) = true /\
             PrimFloat.leb (completeness_score r) 1%float = true /\
             PrimFloat.leb 0%float (completeness (data_quality r)) = true /\
             PrimFloat.leb (completeness (data_quality r)) 1%float = true).
  { intros r H. pose proof (clean_try_fields _ _ _ _ H) as Hf.
    destruct Hf as (_ & _ & _ & _ & _ & _ & Hq & _).
    apply assess_data_quality_range in Hq.
    unfold clean_college_data_try in H. bind_inv H. apply Ok_inj in H. subst r.
    cbn [completeness_score data_quality] in *.
    match goal with
    | |- context [calculate_completeness ?a ?b ?c ?d ?e ?f ?g] =>
        pose proof (calculate_completeness_range a b c d e f g) as Hs
    end.
    cbn zeta in Hs. tauto. }
  split; [intros r H; now apply Htry in H |].
  destruct (clean_college_data py clk raw) as [r | e] eqn:Hclean;
    [| now apply clean_raise_cases in Hclean].
  apply clean_ok_cases in Hclean. destruct Hclean as [H | (_ & _ & ->)].
  - destruct (Htry r H) as (_ & Hrest). exact Hrest.
  - vm_compute. repeat split.
Qed.

(* ================================================================== *)
(** * [utils.py]: extraction of phone numbers from a text *)
(* ================================================================== *)

Module Extract.
Import PyStr Re Utils.


(** [\d{n}] and [\d{m,n}] *)
Definition digits (m n : nat) : regex := Rep is_digit m (Some n).





End Extract.

(** ** Properties of the phone extraction *)

Import Extract.










(** ** Location details *)

(** X18. The location details always name the state Karnataka.  Either no
    city is found, and district and region are empty too, or the city is
    one of the twelve cities of the district table, found in the
    lower-cased location, with its own district.  The city is never
    [Udupi], although the region rule lists it. *)
Theorem extract_location_details_consistent :
  forall location : string,
    let info := extract_location_details location in
    state info = "Karnataka" /\
    ((city info = "" /\ district info = "" /\ region info = "") \/
     (exists c d, In (c, d) city_district_map /\
                  contains c (lower location) = true /\
                  city info = capitalize c /\ district info = d)) /\
    city info <> "Udupi".
Proof.
  intros location. unfold extract_location_details.
  destruct (String.eqb location "").
  - cbn. repeat split; [now left | discriminate].
  - destruct (find _ city_district_map) as [[c d] |] eqn:Hfind.
    + apply find_some in Hfind. destruct Hfind as [Hin Hc]. cbn [fst snd] in *.
      cbn [state city district]. split; [reflexivity |]. split.
      * right. exists c, d. repeat split; assumption.
      * unfold city_district_map in Hin. cbn [In] in Hin.
        repeat (destruct Hin as [Hin | Hin];
                [injection Hin as <- <-; discriminate |]).
        destruct Hin.
    + cbn. repeat split; [now left | discriminate].
Qed.

(** ** The college type of a cleaned record *)

Lemma filed_ge (k : string) (l : list string) (d : list (string * list string)) :
  In (k, l) d -> length l <= filed d.
Proof.
  induction d as [| [k0 l0] d IH]; intros Hin; [destruct Hin |].
  rewrite filed_cons. destruct Hin as [Heq | Hin].
  - injection Heq as <- <-. lia.
  - apply IH in Hin. lia.
Qed.

Lemma categorize_fold_keys (table : list (string * list string)) (xs : list pyval) :
  forall st : list string * list (string * list string),
    map fst (snd (fold_left (categorize_step table) xs st)) = map fst (snd st).
Proof.
  induction xs as [| x xs IH]; intros st; cbn [fold_left]; [reflexivity |].
  rewrite IH. unfold categorize_step. destruct x; try reflexivity.
  destruct (Nat.ltb _ 3 || Nat.ltb 100 _); [reflexivity |].
  cbn [snd]. apply dict_append_keys.
Qed.

(** The names a course can be filed under. *)
Definition course_category_names : list string :=
  [ "Engineering"; "Medical"; "Management"; "Arts"; "Science"; "Commerce";
    "Computer Science"; "Law"; "Other" ].

(** X19. For a cleaned course list the college type is [General] exactly
    when no course was accepted; otherwise it is one of the eight course
    categories or [Other]. *)
Theorem college_type_of_courses :
  forall v : pyval,
    match clean_and_categorize_courses v with
    | Ok c =>
        (determine_college_type c = "General" <-> total c = 0) /\
        (total c <> 0 -> In (determine_college_type c) course_category_names)
    | Raise _ => True
    end.
Proof.
  intros v. unfold clean_and_categorize_courses.
  destruct (clean_and_categorize course_categories 20 v) as [c | e] eqn:Hc;
    [| exact I].
  destruct (clean_and_categorize_well _ _ _ _ Hc) as (Hne & Hsum & _ & _).
  assert (Hkeys : forall k l, In (k, l) (categories c) -> In k course_category_names).
  { intros k l Hin. unfold clean_and_categorize in Hc.
    destruct (negb (truthy v)).
    - apply Ok_inj in Hc. subst c. destruct Hin.
    - bind_inv Hc. apply Ok_inj in Hc. subst c. cbn [categories] in Hin.
      apply filter_In in Hin. destruct Hin as [Hin _].
      apply (in_map fst) in Hin. rewrite categorize_fold_keys in Hin.
      exact Hin. }
  assert (Hpos : total c <> 0 ->
                 In (determine_college_type c) course_category_names).
  { intros Htot. destruct (categories c) as [| [k l] cats] eqn:Hcats.
    - rewrite <- Hsum in Htot. now elim Htot.
    - rewrite <- Hcats in *.
      assert (Hin : In (k, l) (categories c)) by (rewrite Hcats; now left).
      assert (Hl : l <> []).
      { rewrite Forall_forall in Hne. apply (Hne (k, l) Hin). }
      destruct (college_type_is_max c k l Hin Hl) as (l' & Hin' & _).
      now apply (Hkeys _ l'). }
  split; [| exact Hpos]. split.
  - intros Hgen. destruct (Nat.eq_dec (total c) 0) as [H0 | Hn0]; [exact H0 |].
    apply Hpos in Hn0. rewrite Hgen in Hn0. cbn [course_category_names In] in Hn0.
    repeat (destruct Hn0 as [Hn0 | Hn0]; [discriminate Hn0 |]). destruct Hn0.
  - intros H0. unfold determine_college_type.
    destruct (categories c) as [| [k l] cats] eqn:Hcats; [reflexivity |].
    exfalso. rewrite <- Hcats in *.
    assert (Hin : In (k, l) (categories c)) by (rewrite Hcats; now left).
    pose proof (filed_ge k l _ Hin) as Hge.
    rewrite Forall_forall in Hne. specialize (Hne (k, l) Hin). cbn [snd] in Hne.
    destruct l; [now elim Hne | simpl in Hge; lia].
Qed.

(* ================================================================== *)
(** * [scraper.py]: the location step of [extract_college_info_from_html] *)
(* ================================================================== *)

Module ScraperLocation.
Import PyStr Re Utils Scraper.

Definition location_keywords : list string :=
  [ "address"; "location"; "contact"; "situated"; "located" ].

Definition location_places : list string :=
  [ "karnataka"; "bangalore"; "mysore"; "hubli" ].

(** The inner loop: the first parent text that, cleaned and lower-cased,
    contains a place sets the field and breaks. *)
Fixpoint first_location (texts : list string) (location : string) : string :=
  match texts with
  | [] => location
  | t :: rest =>
      let text := clean_text (PStr t) in
      if existsb (fun place => contains place (lower text)) location_places
      then text
      else first_location rest location
  end.

(** The loop over [location_keywords] on the parsed page;
    [college_info['location']] starts as the empty string. *)
Definition extract_location (soup : node) : string :=
  fold_left
    (fun location keyword =>
       first_location (parent_texts (lit_i keyword) EmptyString soup) location)
    location_keywords EmptyString.

End ScraperLocation.

Import ScraperLocation.

Definition names_place (location : string) : Prop :=
  location = "" \/
  (exists place, In place location_places /\ contains place (lower location) = true).

Lemma first_location_names_place (texts : list string) (location : string) :
  names_place location -> names_place (first_location texts location).
Proof.
  intros Hl. induction texts as [| t rest IH]; cbn [first_location]; [exact Hl |].
  cbv zeta.
  destruct (existsb _ location_places) eqn:Hex; [| exact IH].
  right. apply existsb_exists in Hex. exact Hex.
Qed.

(** X20. The location the extractor takes from a page is empty or a
    cleaned text whose lower-cased form contains [karnataka], [bangalore],
    [mysore] or [hubli]. *)
Theorem extract_location_names_place :
  forall soup : node, names_place (extract_location soup).
Proof.
  intros soup. unfold extract_location, location_keywords. cbn [fold_left].
  repeat apply first_location_names_place. now left.
Qed.

(* ================================================================== *)
(** * The canonical record as a whole *)
(* ================================================================== *)








(* ================================================================== *)
(** * Cleaning a cleaned record again *)
(* ================================================================== *)

(** ** The fields that are cleaned to themselves *)












(** ** The fields that are not *)






